(** * SMART ATA check plugin ([cmk/plugins/smart/agent_based/smart_ata.py])

    A shallow embedding of the discovery and check functions of the plugin,
    followed by the properties of its evaluation rules.

    Conventions of the embedding:
    - a Python [int] is a [Z], a Python [float] is a binary64 primitive float,
      [str] is [string];
    - a generator is a computation in the monad [Gen]: it runs on the two
      mutable objects a check receives (its parameter dict and the value
      store), and ends with the items it yielded, in order, the way it
      stopped (returned or raised) and the objects as it left them;
    - what the plugin imports from the host framework is either modelled
      ([get_rate], [check_levels]) or taken as an interface ([Host],
      [TemperatureLib]). *)

From Stdlib Require Import ZArith String List Bool Lia Floats.
From stdpp Require Import base option list gmap strings pretty.
Import ListNotations.

#[local] Open Scope Z_scope.
#[local] Open Scope string_scope.
#[local] Open Scope list_scope.

(** ** Host framework data ([cmk.agent_based.v2]) *)

Inductive State : Set := OK | WARN | CRIT | UNKNOWN.

(** What a check function yields: [Result(state=, summary=)] or
    [Metric(name, value)]. Every metric of this plugin carries an [int] and
    neither levels nor boundaries. *)
Inductive CheckItem : Set :=
| Result (state : State) (summary : string)
| Metric (name : string) (value : Z).

(** What a discovery function yields: [Service(item=, parameters=)]. *)
Record Service (P : Type) : Type := mkService { item : string; parameters : P }.
Arguments mkService {P} _ _.
Arguments item {P} _.
Arguments parameters {P} _.

(** The exceptions a run of the plugin can end with. [GetRateError] is the
    framework's "ignore the results of this cycle" signal. *)
Inductive Exception : Set :=
| GetRateError (msg : string)
| ZeroDivisionError
| OverflowError.

(** A value kept in the value store ([MutableMapping[str, object]]): the
    [(time, value)] pair [get_rate] leaves there, or any other object. *)
Inductive object : Set :=
| Sample (time : float) (value : Z)
| Opaque (repr : string).

(** ** Generators over the mutable objects of a check *)

(** The two dicts a check call holds references to. *)
Record Env (P : Type) : Type := mkEnv { params : P; value_store : gmap string object }.
Arguments mkEnv {P} _ _.
Arguments params {P} _.
Arguments value_store {P} _.

(** The end of a run: the yielded items, [inr] for a normal return and [inl]
    for a raised exception, and the objects afterwards. *)
Record Run (P A : Type) : Type :=
  mkRun { emitted : list CheckItem; outcome : Exception + A; final : Env P }.
Arguments mkRun {P A} _ _ _.
Arguments emitted {P A} _.
Arguments outcome {P A} _.
Arguments final {P A} _.

Definition Gen (P A : Type) : Type := Env P -> Run P A.

Definition run {P A} (g : Gen P A) (env : Env P) : Run P A := g env.

#[global] Instance gen_ret {P} : MRet (Gen P) :=
  fun A a env => mkRun [] (inr a) env.

(** Sequencing: what [g] yielded comes first, and an exception of [g] ends
    the run before [f] starts. *)
#[global] Instance gen_bind {P} : MBind (Gen P) :=
  fun A B f g env =>
    let r := g env in
    match outcome r with
    | inl e => mkRun (emitted r) (inl e) (final r)
    | inr a =>
        let r' := f a (final r) in
        mkRun (emitted r ++ emitted r') (outcome r') (final r')
    end.

Definition yield {P} (i : CheckItem) : Gen P unit :=
  fun env => mkRun [i] (inr tt) env.

Definition raise {P A} (e : Exception) : Gen P A :=
  fun env => mkRun [] (inl e) env.

(** [params[...]] and [params.get(...)]: a read of the parameter dict. *)
Definition params_get {P A} (field : P -> A) : Gen P A :=
  fun env => mkRun [] (inr (field (params env))) env.

(** [value_store.get(key)] *)
Definition store_get {P} (key : string) : Gen P (option object) :=
  fun env => mkRun [] (inr (value_store env !! key)) env.

(** [value_store[key] = v] *)
Definition store_set {P} (key : string) (v : object) : Gen P unit :=
  fun env => mkRun [] (inr tt) (mkEnv (params env) (<[key := v]> (value_store env))).

(** [if (x := o) is not None: body(x)] *)
Definition when_some {P A} (o : option A) (body : A -> Gen P unit) : Gen P unit :=
  match o with
  | Some a => body a
  | None => mret tt
  end.

(** ** Python numbers *)

(** [str(n)] of an [int]. *)
Definition str (n : Z) : string := pretty n.

(** The binary64 nearest to an integer, ties to even (infinite past the
    largest finite float). *)
Definition nearest_float (n : Z) : float :=
  SF2Prim (binary_normalize prec emax n 0 false).

(** [float(n)] of an [int]: the nearest binary64; [OverflowError] when that
    is not finite. *)
Definition float_of_int {P} (n : Z) : Gen P float :=
  let f := nearest_float n in
  if PrimFloat.is_infinity f then raise OverflowError else mret f.

(** [a / b] on floats: [ZeroDivisionError] on a zero divisor. *)
Definition truediv {P} (a b : float) : Gen P float :=
  if PrimFloat.is_zero b then raise ZeroDivisionError else mret (PrimFloat.div a b).

(** ** The parsed agent section ([.smart_posix], not part of the sources here) *)

Record ATARawValue : Set := mkRaw { raw_value : Z }.

(** One row of the attribute table: [id], [name], the normalized [value],
    its vendor threshold [thresh] and the [raw] counter. *)
Record ATATableEntry : Set := mkEntry {
  entry_id : Z;
  entry_name : string;
  entry_value : Z;
  entry_thresh : Z;
  entry_raw : ATARawValue
}.

Record Temperature : Set := mkTemperature { current : Z }.

Record ATADevice : Set := mkATADevice { ata_device_name : string }.

Record ATAAll : Set := mkATAAll {
  device : ATADevice;
  model_name : string;
  serial_number : string;
  ata_smart_attributes : option (list ATATableEntry);
  temperature : option Temperature
}.

(** The records of the other protocols; the plugin only tells them apart
    from an ATA record. *)
Record OtherAll : Set := mkOtherAll {
  other_device_name : string;
  other_temperature : option Temperature
}.

(** [NVMeAll | ATAAll | SCSIAll]. [isinstance(disk, ATAAll)] and
    [isinstance(disk.device, ATADevice)] both hold exactly on [DiskATA]. *)
Inductive Disk : Set :=
| DiskATA (d : ATAAll)
| DiskNVMe (d : OtherAll)
| DiskSCSI (d : OtherAll).

(** Modelled from the spec: [ATAAll.by_id], the lookup of an attribute entry
    by its numeric ID, is declared in [.smart_posix]; it answers with the
    entry of that ID, or with [None] when the disk exposes no attribute
    collection or none of that ID. *)
Definition by_id (disk : ATAAll) (id_ : Z) : option ATATableEntry :=
  match ata_smart_attributes disk with
  | None => None
  | Some table => find (fun entry => Z.eqb (entry_id entry) id_) table
  end.

Definition DiskKey : Set := (string * string)%type.

(** [Section.devices] is a dict; its items are kept in insertion order, and
    a key occurs once. *)
Record SmartSection : Set := mkSection { devices : list (DiskKey * Disk) }.

(** [section.devices.get(key)] *)
Fixpoint devices_get (items : list (DiskKey * Disk)) (key : DiskKey) : option Disk :=
  match items with
  | [] => None
  | (k, disk) :: rest => if decide (k = key) then Some disk else devices_get rest key
  end.

(** [DiscoveryParam]: [{"item_type": (kind, None)}]. *)
Inductive ItemType : Set := device_name | model_serial.

Record DiscoveryParam : Set := mkDiscoveryParam { item_type : ItemType * unit }.

(** ** What the host provides and the plugin calls without looking inside *)

(** [render.timespan], the framework's default rendering of a value
    ([check_levels] without [render_func]) and [get_item] of [.smart], which
    names the service of a disk. *)
Class Host : Type := mkHost {
  render_timespan : Z -> string;
  render_default : Z -> string;
  get_item : Disk -> ItemType -> string
}.

(** [cmk.plugins.lib.temperature.check_temperature] with the parameter dict
    it reads; the dict carries the discovered ["key"] too. *)
Class TemperatureLib : Type := mkTemperatureLib {
  TempAndDiscoveredParams : Type;
  temp_key : TempAndDiscoveredParams -> DiskKey;
  check_temperature :
    Z -> TempAndDiscoveredParams -> string -> Gen TempAndDiscoveredParams unit
}.

(** ** Framework functions the rules depend on *)

(** Modelled from the spec: [get_rate] of the host framework (not part of
    the sources here): "get_rate(store, key, timestamp, counter_value) ->
    float with implicit priming on first call", "rate = (current - previous)
    / (now - previous_time)", "no previous sample => no result emitted,
    store primed". The sample is stored first; without an earlier sample, or
    when time did not advance, the call raises [GetRateError], which is how
    a call that returns a float leaves its caller without a result. *)
Definition get_rate {P} (key : string) (time : float) (value : Z) : Gen P float :=
  last_state ← store_get key;
  store_set key (Sample time value);;
  match last_state with
  | Some (Sample last_time last_value) =>
      if PrimFloat.leb time last_time
      then raise (GetRateError ("No time difference: '" +:+ key +:+ "'"))
      else
        delta ← float_of_int (value - last_value);
        truediv delta (PrimFloat.sub time last_time)
  | _ => raise (GetRateError ("Initialized: '" +:+ key +:+ "'"))
  end.

(** Modelled from the spec: [check_levels] of the host framework (not part
    of the sources here), for the arguments the plugin passes: an optional
    fixed lower pair [(warn, crit)], an optional metric name, an optional
    render function, a label. The value is "always OK" without levels; with
    lower levels "the value must not fall below" them: below [crit] is
    CRIT, else below [warn] is WARN. One result is yielded, then a metric
    when a metric name was given. *)
Definition check_levels `{Host} {P} (value : Z) (levels_lower : option (Z * Z))
    (metric_name : option string) (render_func : option (Z -> string))
    (label : string) : Gen P unit :=
  let render := default render_default render_func in
  let info_text := label +:+ ": " +:+ render value in
  let levels_text '(warn, crit) :=
    " (warn/crit below " +:+ render warn +:+ "/" +:+ render crit +:+ ")" in
  match levels_lower with
  | None => yield (Result OK info_text)
  | Some (warn, crit) =>
      if (value <? crit)%Z then yield (Result CRIT (info_text +:+ levels_text (warn, crit)))
      else if (value <? warn)%Z then yield (Result WARN (info_text +:+ levels_text (warn, crit)))
      else yield (Result OK info_text)
  end;;
  when_some metric_name (fun name => yield (Metric name value)).

(** ** The plugin *)

Definition MAX_COMMAND_TIMEOUTS_PER_HOUR : Z := 100.

(** [MAX_COMMAND_TIMEOUTS_PER_HOUR / (60 * 60)], a true division of two
    small ints. *)
Definition rate_ceiling : float :=
  PrimFloat.div (nearest_float MAX_COMMAND_TIMEOUTS_PER_HOUR) (nearest_float (60 * 60)).

(** The parameters of a temperature service: [{"key": key}]. *)
Definition discovery_smart_ata_temp `{Host} (params : DiscoveryParam)
    (section : SmartSection) : list (Service DiskKey) :=
  flat_map
    (fun '(key, disk) =>
       match disk with
       | DiskATA d =>
           match temperature d with
           | Some _ => [mkService (get_item disk (fst (item_type params))) key]
           | None => []
           end
       | _ => []
       end)
    (devices section).

Definition check_smart_ata_temp `{TemperatureLib} (item : string)
    (section : SmartSection) : Gen TempAndDiscoveredParams unit :=
  key ← params_get temp_key;
  match devices_get (devices section) key with
  | Some (DiskATA disk) =>
      match temperature disk with
      | None => mret tt
      | Some t =>
          params ← params_get id;
          check_temperature (current t) params ("smart_" +:+ item)
      end
  | _ => mret tt
  end.

Record AtaParams : Set := mkAtaParams {
  key : DiskKey;
  id_5 : option Z;
  id_10 : option Z;
  id_184 : option Z;
  id_187 : option Z;
  id_188 : option Z;
  id_196 : option Z;
  id_197 : option Z;
  id_199 : option Z
}.

(** [entry.raw.value if (entry := disk.by_id(n)) is not None else None] *)
Definition raw_at (disk : ATAAll) (n : Z) : option Z :=
  match by_id disk n with
  | Some entry => Some (raw_value (entry_raw entry))
  | None => None
  end.

Definition discover_smart_ata `{Host} (params : DiscoveryParam)
    (section : SmartSection) : list (Service AtaParams) :=
  flat_map
    (fun '(key, disk) =>
       match disk with
       | DiskATA d =>
           match ata_smart_attributes d with
           | Some _ =>
               let parameters :=
                 {| key := key;
                    id_5 := raw_at d 5;
                    id_10 := raw_at d 10;
                    id_184 := raw_at d 184;
                    id_187 := raw_at d 187;
                    id_188 := raw_at d 188;
                    id_196 := raw_at d 196;
                    id_197 := raw_at d 197;
                    id_199 := raw_at d 199 |} in
               [mkService (get_item disk (fst (item_type params))) parameters]
           | None => []
           end
       | _ => []
       end)
    (devices section).

Definition _check_against_discovery {P} (value : Z) (discovered_value : option Z)
    (label metric_name : string) : Gen P unit :=
  match discovered_value with
  | Some discovered =>
      if (discovered <? value)%Z
      then yield (Result CRIT (label +:+ ": " +:+ str value +:+ " (during discovery: "
                               +:+ str discovered +:+ ") (!!)"))
      else yield (Result OK (label +:+ ": " +:+ str value))
  | None => yield (Result OK (label +:+ ": " +:+ str value))
  end;;
  yield (Metric metric_name value).

Definition _check_command_timeout {P} (disk : ATAAll) (now : float) : Gen P unit :=
  when_some (by_id disk 188) (fun command_timeout_counter =>
    let raw := raw_value (entry_raw command_timeout_counter) in
    rate ← get_rate "cmd_timeout" now raw;
    (if PrimFloat.leb rate_ceiling rate
     then yield (Result CRIT ("Command Timeout Counter: " +:+ str raw
                              +:+ " (counter increased more than "
                              +:+ str MAX_COMMAND_TIMEOUTS_PER_HOUR +:+ " counts / h (!!))"))
     else yield (Result OK ("Command Timeout Counter: " +:+ str raw)));;
    yield (Metric "harddrive_cmd_timeouts" raw)).

(** [_check_smart_ata(item, params, section, value_store, now)]; [params]
    and [value_store] are the two objects of the environment. *)
Definition _check_smart_ata `{Host} (item : string) (section : SmartSection)
    (now : float) : Gen AtaParams unit :=
  k ← params_get key;
  match devices_get (devices section) k with
  | Some (DiskATA disk) =>
      when_some (by_id disk 5) (fun reallocated_sector_count =>
        discovered_value ← params_get id_5;
        _check_against_discovery (raw_value (entry_raw reallocated_sector_count))
          discovered_value "Reallocated sectors" "harddrive_reallocated_sectors");;
      when_some (by_id disk 9) (fun power_on_hours =>
        check_levels (raw_value (entry_raw power_on_hours)) None
          (Some "uptime") (Some render_timespan) "Powered on");;
      when_some (by_id disk 10) (fun spin_retries =>
        discovered_value ← params_get id_10;
        _check_against_discovery (raw_value (entry_raw spin_retries))
          discovered_value "Spin retries" "harddrive_spin_retries");;
      when_some (by_id disk 12) (fun power_cycles =>
        check_levels (raw_value (entry_raw power_cycles)) None
          (Some "harddrive_power_cycles") (Some str) "Power cycles");;
      when_some (by_id disk 184) (fun end_to_end_errors =>
        discovered_value ← params_get id_184;
        _check_against_discovery (raw_value (entry_raw end_to_end_errors))
          discovered_value "End-to-End Errors" "harddrive_end_to_end_errors");;
      when_some (by_id disk 187) (fun uncorrectable_errors =>
        discovered_value ← params_get id_187;
        _check_against_discovery (raw_value (entry_raw uncorrectable_errors))
          discovered_value "Uncorrectable errors" "harddrive_uncorrectable_errors");;
      _check_command_timeout disk now;;
      when_some (by_id disk 196) (fun reallocated_events =>
        discovered_value ← params_get id_196;
        _check_against_discovery (raw_value (entry_raw reallocated_events))
          discovered_value "Reallocated events" "harddrive_reallocated_events";;
        check_levels (entry_value reallocated_events)
          (Some (entry_thresh reallocated_events, entry_thresh reallocated_events))
          None None "Normalized value");;
      when_some (by_id disk 197) (fun pending_sectors =>
        discovered_value ← params_get id_197;
        _check_against_discovery (raw_value (entry_raw pending_sectors))
          discovered_value "Pending sectors" "harddrive_pending_sectors");;
      when_some (by_id disk 199) (fun crc_errors =>
        if decide (entry_name crc_errors = "UDMA_CRC_Error_Count")
        then
          discovered_value ← params_get id_199;
          _check_against_discovery (raw_value (entry_raw crc_errors))
            discovered_value "UDMA CRC errors" "harddrive_udma_crc_errors"
        else
          discovered_value ← params_get id_199;
          _check_against_discovery (raw_value (entry_raw crc_errors))
            discovered_value "CRC errors" "harddrive_crc_errors")
  | _ => mret tt
  end.

(** ** Inputs for the examples *)

(** A host for the examples: seconds printed plainly, two decimals for the
    default rendering of an int, and the two naming schemes of a service. *)
Definition example_host : Host :=
  {| render_timespan := fun seconds => str seconds +:+ " seconds";
     render_default := fun v => str v +:+ ".00";
     get_item := fun disk kind =>
       match disk, kind with
       | DiskATA d, device_name => ata_device_name (device d)
       | DiskATA d, model_serial => model_name d +:+ " " +:+ serial_number d
       | DiskNVMe d, _ | DiskSCSI d, _ => other_device_name d
       end |}.

(** A temperature library for the examples: it reports the reading. *)
Definition example_temperature : TemperatureLib :=
  {| TempAndDiscoveredParams := DiskKey;
     temp_key := fun k => k;
     check_temperature := fun reading _ _ =>
       yield (Result OK ("Temperature: " +:+ str reading));;
       yield (Metric "temp" reading) |}.

Definition attr (id_ : Z) (name : string) (value thresh raw : Z) : ATATableEntry :=
  mkEntry id_ name value thresh (mkRaw raw).

Definition ata_disk (table : option (list ATATableEntry)) (t : option Temperature) : Disk :=
  DiskATA (mkATAAll (mkATADevice "/dev/sda") "WDC WD40" "S123" table t).

Definition sda : DiskKey := ("WDC WD40", "S123").

Definition section_of (disk : Disk) : SmartSection := mkSection [(sda, disk)].

(** Baseline parameters of [sda] with no attribute recorded. *)
Definition no_baseline : AtaParams :=
  mkAtaParams sda None None None None None None None None.

(** A value store [get_rate] was called on before, at [time] with [value]. *)
Definition primed (time : float) (value : Z) : gmap string object :=
  {[ "cmd_timeout" := Sample time value ]}.

(** ** The evaluation rules, as the specification words them *)

(** The IDs whose raw values discovery records. *)
Definition tracked_ids : list Z := [5; 10; 184; 187; 188; 196; 197; 199].

(** The IDs evaluated by the regression-vs-baseline rule. *)
Definition regression_ids : list Z := [5; 10; 184; 187; 196; 197; 199].

(** The IDs the check evaluates before it comes to the rate check of 188. *)
Definition early_ids : list Z := [5; 10; 184; 187].

(** The baseline recorded for an ID: [params.get("id_<n>")]. *)
Definition recorded (p : AtaParams) (n : Z) : option Z :=
  if (n =? 5)%Z then id_5 p
  else if (n =? 10)%Z then id_10 p
  else if (n =? 184)%Z then id_184 p
  else if (n =? 187)%Z then id_187 p
  else if (n =? 188)%Z then id_188 p
  else if (n =? 196)%Z then id_196 p
  else if (n =? 197)%Z then id_197 p
  else if (n =? 199)%Z then id_199 p
  else None.

(** The fixed vendor name that selects the UDMA label of attribute 199. *)
Definition udma_name : string := "UDMA_CRC_Error_Count".

(** Label and metric name of an attribute under the regression rule. *)
Definition regression_label (n : Z) (entry : ATATableEntry) : string :=
  if (n =? 5)%Z then "Reallocated sectors"
  else if (n =? 10)%Z then "Spin retries"
  else if (n =? 184)%Z then "End-to-End Errors"
  else if (n =? 187)%Z then "Uncorrectable errors"
  else if (n =? 196)%Z then "Reallocated events"
  else if (n =? 197)%Z then "Pending sectors"
  else if String.eqb (entry_name entry) udma_name then "UDMA CRC errors"
  else "CRC errors".

Definition regression_metric (n : Z) (entry : ATATableEntry) : string :=
  if (n =? 5)%Z then "harddrive_reallocated_sectors"
  else if (n =? 10)%Z then "harddrive_spin_retries"
  else if (n =? 184)%Z then "harddrive_end_to_end_errors"
  else if (n =? 187)%Z then "harddrive_uncorrectable_errors"
  else if (n =? 196)%Z then "harddrive_reallocated_events"
  else if (n =? 197)%Z then "harddrive_pending_sectors"
  else if String.eqb (entry_name entry) udma_name then "harddrive_udma_crc_errors"
  else "harddrive_crc_errors".

(** "If no baseline was recorded, always report OK. If a baseline exists
    and the current value strictly exceeds it, report CRITICAL with a
    message showing both values; otherwise report OK with the current
    value. Always emit a metric carrying the current raw value." *)
Definition regression_result (value : Z) (baseline : option Z) (label : string) : CheckItem :=
  match baseline with
  | None => Result OK (label +:+ ": " +:+ str value)
  | Some b =>
      if (value >? b)%Z
      then Result CRIT (label +:+ ": " +:+ str value +:+ " (during discovery: "
                        +:+ str b +:+ ") (!!)")
      else Result OK (label +:+ ": " +:+ str value)
  end.

Definition regression_items (value : Z) (baseline : option Z)
    (label metric_name : string) : list CheckItem :=
  [regression_result value baseline label; Metric metric_name value].

(** An item is about a label when it is a result whose summary starts with
    ["<label>: "], and about a metric name when it is that metric. *)
Definition concerns (label metric_name : string) (i : CheckItem) : bool :=
  match i with
  | Result _ summary => String.prefix (label +:+ ": ") summary
  | Metric name _ => String.eqb name metric_name
  end.

(** The items of a run about a label and a metric name, in order. *)
Definition about (label metric_name : string) (items : list CheckItem) : list CheckItem :=
  List.filter (concerns label metric_name) items.

(** A label and metric name [l], [m] are foreign to [L], [M] when no result
    labelled [l] is about [L] and [m] is another name than [M]. *)
Definition foreign (L M l m : string) : Prop :=
  (forall rest, String.prefix (L +:+ ": ") (l +:+ ": " +:+ rest) = false)
  /\ String.eqb m M = false.

(** A name no metric of the plugin has: [about label no_metric] keeps the
    results of a label only. *)
Definition no_metric : string := "".

(** The disk a check resolves: [section.devices.get(key)] when it is an
    [ATAAll]. *)
Definition resolve (section : SmartSection) (k : DiskKey) : option ATAAll :=
  match devices_get (devices section) k with
  | Some (DiskATA disk) => Some disk
  | _ => None
  end.

(** "ATA disk exposing a SMART attribute collection" *)
Definition exposes_attributes (entry : DiskKey * Disk) : bool :=
  match snd entry with
  | DiskATA d => bool_decide (is_Some (ata_smart_attributes d))
  | _ => false
  end.

(** What the blocks of [_check_smart_ata] yield for one attribute. *)
Definition block_regression (disk : ATAAll) (n : Z) (baseline : option Z)
    (label metric_name : string) : list CheckItem :=
  match by_id disk n with
  | Some entry => regression_items (raw_value (entry_raw entry)) baseline label metric_name
  | None => []
  end.

Definition block_plain (disk : ATAAll) (n : Z) (render : Z -> string)
    (label metric_name : string) : list CheckItem :=
  match by_id disk n with
  | Some entry =>
      [Result OK (label +:+ ": " +:+ render (raw_value (entry_raw entry)));
       Metric metric_name (raw_value (entry_raw entry))]
  | None => []
  end.

(** The secondary result of attribute 196. *)
Definition normalized_result `{Host} (entry : ATATableEntry) : CheckItem :=
  let info := "Normalized value: " +:+ render_default (entry_value entry) in
  if (entry_value entry <? entry_thresh entry)%Z
  then Result CRIT (info +:+ " (warn/crit below " +:+ render_default (entry_thresh entry)
                    +:+ "/" +:+ render_default (entry_thresh entry) +:+ ")")
  else Result OK info.

Definition block_196 `{Host} (disk : ATAAll) (baseline : option Z) : list CheckItem :=
  match by_id disk 196 with
  | Some entry =>
      regression_items (raw_value (entry_raw entry)) baseline
        "Reallocated events" "harddrive_reallocated_events"
      ++ [normalized_result entry]
  | None => []
  end.

Definition block_199 (disk : ATAAll) (baseline : option Z) : list CheckItem :=
  match by_id disk 199 with
  | Some entry =>
      regression_items (raw_value (entry_raw entry)) baseline
        (regression_label 199 entry) (regression_metric 199 entry)
  | None => []
  end.

(** "If the computed rate reaches or exceeds the ceiling, report CRITICAL
    including the raw counter value and the ceiling in the message;
    otherwise report OK with the raw value." *)
Definition timeout_result (raw : Z) (rate : float) : CheckItem :=
  if PrimFloat.leb rate_ceiling rate
  then Result CRIT ("Command Timeout Counter: " +:+ str raw
                    +:+ " (counter increased more than 100 counts / h (!!))")
  else Result OK ("Command Timeout Counter: " +:+ str raw).

(** What [get_rate] answers, given the object it finds under its key: "rate
    = (current - previous) / (now - previous_time)", and no rate without an
    earlier sample. *)
Definition rate_answer (k : string) (last_state : option object) (time : float)
    (value : Z) : Exception + float :=
  match last_state with
  | Some (Sample last_time last_value) =>
      if PrimFloat.leb time last_time
      then inl (GetRateError ("No time difference: '" +:+ k +:+ "'"))
      else if PrimFloat.is_infinity (nearest_float (value - last_value)) then inl OverflowError
      else if PrimFloat.is_zero (PrimFloat.sub time last_time) then inl ZeroDivisionError
      else inr (PrimFloat.div (nearest_float (value - last_value))
                  (PrimFloat.sub time last_time))
  | _ => inl (GetRateError ("Initialized: '" +:+ k +:+ "'"))
  end.

(** What a run yields before the rate check of attribute 188, and after it. *)
Definition before_timeout `{Host} (p : AtaParams) (disk : ATAAll) : list CheckItem :=
  block_regression disk 5 (id_5 p) "Reallocated sectors" "harddrive_reallocated_sectors"
  ++ block_plain disk 9 render_timespan "Powered on" "uptime"
  ++ block_regression disk 10 (id_10 p) "Spin retries" "harddrive_spin_retries"
  ++ block_plain disk 12 str "Power cycles" "harddrive_power_cycles"
  ++ block_regression disk 184 (id_184 p) "End-to-End Errors" "harddrive_end_to_end_errors"
  ++ block_regression disk 187 (id_187 p) "Uncorrectable errors" "harddrive_uncorrectable_errors".

Definition after_timeout `{Host} (p : AtaParams) (disk : ATAAll) : list CheckItem :=
  block_196 disk (id_196 p)
  ++ block_regression disk 197 (id_197 p) "Pending sectors" "harddrive_pending_sectors"
  ++ block_199 disk (id_199 p).

(** The run gets past the rate check of attribute 188: the check of that
    attribute returns instead of raising. *)
Definition reached (now : float) (disk : ATAAll) (env : Env AtaParams) : Prop :=
  outcome (run (_check_command_timeout disk now) env) = inr tt.

(** Example inputs: a disk with the attributes the check looks at, the
    baseline recorded for it, and the same disk with a generic CRC name. *)
Definition worn_table : list ATATableEntry :=
  [attr 5 "Reallocated_Sector_Ct" 100 10 3;
   attr 9 "Power_On_Hours" 90 0 12345;
   attr 188 "Command_Timeout" 100 0 101;
   attr 196 "Reallocated_Event_Count" 5 10 7;
   attr 197 "Current_Pending_Sector" 100 0 9;
   attr 199 "UDMA_CRC_Error_Count" 200 0 2].

Definition worn_disk : ATAAll :=
  mkATAAll (mkATADevice "/dev/sda") "WDC WD40" "S123" (Some worn_table) None.

Definition worn_baseline : AtaParams :=
  mkAtaParams sda (Some 2) None None None (Some 0) (Some 6) (Some 4) (Some 2).

(** The parameters with another baseline for attribute 188. *)
Definition with_id_188 (b : option Z) (p : AtaParams) : AtaParams :=
  mkAtaParams (key p) (id_5 p) (id_10 p) (id_184 p) (id_187 p) b
    (id_196 p) (id_197 p) (id_199 p).

(** A generator that only yields: it returns, leaves the objects alone, and
    what it yields is a function of the parameters. *)
Definition yields {P} (g : Gen P unit) (out : P -> list CheckItem) : Prop :=
  forall env, run g env = mkRun (out (params env)) (inr tt) env.

(** ** The check as the host calls it, and what a run is looked at for *)

(** The reading of [time.time()] at a call of the check. *)
Class Clock : Type := mkClock { time_time : float }.

(** [check_smart_ata(item, params, section)]: the value store of the
    environment is the one [get_value_store()] hands out. *)
Definition check_smart_ata `{Host} `{Clock} (item : string) (section : SmartSection)
    : Gen AtaParams unit :=
  _check_smart_ata item section time_time.

(** An entry of the section the temperature discovery proposes a service
    for: [isinstance(disk.device, ATADevice) and disk.temperature is not
    None]. *)
Definition reports_temperature (entry : DiskKey * Disk) : bool :=
  match snd entry with
  | DiskATA d => bool_decide (is_Some (temperature d))
  | _ => false
  end.

(** The keys of a dict occur once. *)
Definition keys_once (section : SmartSection) : Prop :=
  NoDup (map fst (devices section)).

(** The names of the metrics among the items of a run, in order. *)
Definition metric_names (items : list CheckItem) : list string :=
  flat_map (fun i => match i with Metric name _ => [name] | Result _ _ => [] end) items.

(** An item that is not a WARN or UNKNOWN result. *)
Definition ok_or_crit (i : CheckItem) : Prop :=
  match i with
  | Result WARN _ | Result UNKNOWN _ => False
  | _ => True
  end.

(** An item that is not a CRIT result of the regression rule: a CRIT result
    is one of the rate check or of the normalized value of attribute 196. *)
Definition no_regression_alert (i : CheckItem) : Prop :=
  match i with
  | Result CRIT summary =>
      String.prefix "Command Timeout Counter: " summary = true
      \/ String.prefix "Normalized value: " summary = true
  | _ => True
  end.

(** An item that is not a CRIT result. *)
Definition no_alert (i : CheckItem) : Prop :=
  match i with
  | Result CRIT _ => False
  | _ => True
  end.

(** Further example inputs: the clock of a call, the example disk with a
    temperature reading, a disk without attribute 188 and one without an
    attribute table. *)
Definition example_clock : Clock := mkClock (nearest_float 3600).

Definition warm_disk : ATAAll :=
  mkATAAll (mkATADevice "/dev/sda") "WDC WD40" "S123" (Some worn_table)
    (Some (mkTemperature 38)).

Definition quiet_table : list ATATableEntry :=
  [attr 5 "Reallocated_Sector_Ct" 100 10 3;
   attr 9 "Power_On_Hours" 90 0 12345;
   attr 12 "Power_Cycle_Count" 99 0 321;
   attr 197 "Current_Pending_Sector" 100 0 9].

Definition quiet_disk : ATAAll :=
  mkATAAll (mkATADevice "/dev/sda") "WDC WD40" "S123" (Some quiet_table) None.

Definition bare_disk : ATAAll :=
  mkATAAll (mkATADevice "/dev/sda") "WDC WD40" "S123" None None.

(** * Properties *)

(** ** The generator monad *)

Lemma run_bind {P A B} (g : Gen P A) (f : A -> Gen P B) (env : Env P) :
  run (g ≫= f) env =
  match outcome (run g env) with
  | inl e => mkRun (emitted (run g env)) (inl e) (final (run g env))
  | inr a =>
      mkRun (emitted (run g env) ++ emitted (run (f a) (final (run g env))))
        (outcome (run (f a) (final (run g env))))
        (final (run (f a) (final (run g env))))
  end.
Proof. reflexivity. Qed.

Lemma run_eta {P A} (r : Run P A) : mkRun (emitted r) (outcome r) (final r) = r.
Proof. by destruct r. Qed.

Lemma run_yields_bind {P B} (g : Gen P unit) (out : P -> list CheckItem)
    (f : unit -> Gen P B) (env : Env P) :
  yields g out ->
  run (g ≫= f) env =
  mkRun (out (params env) ++ emitted (run (f tt) env))
    (outcome (run (f tt) env)) (final (run (f tt) env)).
Proof. intros Hg. rewrite run_bind, (Hg env). reflexivity. Qed.

Lemma run_bind_yields {P A} (g : Gen P A) (h : Gen P unit) (out : P -> list CheckItem)
    (env : Env P) :
  yields h out ->
  run (g ≫= fun _ => h) env =
  match outcome (run g env) with
  | inl e => mkRun (emitted (run g env)) (inl e) (final (run g env))
  | inr _ =>
      mkRun (emitted (run g env) ++ out (params (final (run g env)))) (inr tt)
        (final (run g env))
  end.
Proof.
  intros Hh. rewrite run_bind. destruct (outcome (run g env)); [reflexivity|].
  rewrite (Hh (final (run g env))). reflexivity.
Qed.

Lemma yields_regression {P} (value : Z) (baseline : P -> option Z) (label metric_name : string) :
  yields (discovered_value ← params_get baseline;
          _check_against_discovery value discovered_value label metric_name)
    (fun p => regression_items value (baseline p) label metric_name).
Proof.
  intros env. unfold regression_items, regression_result, _check_against_discovery.
  rewrite run_bind. cbn.
  destruct (baseline (params env)) as [b|]; [|reflexivity].
  rewrite Z.gtb_ltb. destruct (b <? value)%Z; reflexivity.
Qed.

Lemma yields_when_some {P A} (o : option A) (body : A -> Gen P unit)
    (out : A -> P -> list CheckItem) :
  (forall a, yields (body a) (out a)) ->
  yields (when_some o body) (fun p => match o with Some a => out a p | None => [] end).
Proof. intros Hbody. destruct o as [a|]; [apply Hbody | intros env; reflexivity]. Qed.

(** ** The blocks of the attribute check *)

Section Blocks.
Context `{Host}.

Lemma yields_plain_levels {P} (value : Z) (render : Z -> string) (label metric_name : string) :
  yields (P := P) (check_levels value None (Some metric_name) (Some render) label)
    (fun _ => [Result OK (label +:+ ": " +:+ render value); Metric metric_name value]).
Proof. intros env. reflexivity. Qed.

Lemma yields_normalized {P} (entry : ATATableEntry) :
  yields (P := P)
    (check_levels (entry_value entry) (Some (entry_thresh entry, entry_thresh entry))
       None None "Normalized value")
    (fun _ => [normalized_result entry]).
Proof.
  intros env. unfold check_levels, normalized_result. cbn.
  rewrite run_bind. destruct (entry_value entry <? entry_thresh entry)%Z; reflexivity.
Qed.

Lemma yields_block_regression (disk : ATAAll) (n : Z) (baseline : AtaParams -> option Z)
    (label metric_name : string) :
  yields
    (when_some (by_id disk n) (fun entry =>
       discovered_value ← params_get baseline;
       _check_against_discovery (raw_value (entry_raw entry)) discovered_value
         label metric_name))
    (fun p => block_regression disk n (baseline p) label metric_name).
Proof.
  unfold block_regression.
  apply (yields_when_some (by_id disk n) _
           (fun entry p => regression_items (raw_value (entry_raw entry)) (baseline p)
                             label metric_name)).
  intros entry. apply yields_regression.
Qed.

Lemma yields_block_plain {P} (disk : ATAAll) (n : Z) (render : Z -> string)
    (label metric_name : string) :
  yields (P := P)
    (when_some (by_id disk n) (fun entry =>
       check_levels (raw_value (entry_raw entry)) None (Some metric_name) (Some render) label))
    (fun _ => block_plain disk n render label metric_name).
Proof.
  unfold block_plain.
  apply (yields_when_some (by_id disk n) _
           (fun entry _ => [Result OK (label +:+ ": " +:+ render (raw_value (entry_raw entry)));
                            Metric metric_name (raw_value (entry_raw entry))])).
  intros entry. apply yields_plain_levels.
Qed.

Lemma yields_seq {P} (g h : Gen P unit) (out1 out2 : P -> list CheckItem) :
  yields g out1 -> yields h out2 -> yields (g;; h) (fun p => out1 p ++ out2 p).
Proof.
  intros Hg Hh env. rewrite (run_yields_bind g out1 _ env Hg), (Hh env). reflexivity.
Qed.

Lemma yields_block_196 (disk : ATAAll) :
  yields
    (when_some (by_id disk 196) (fun reallocated_events =>
       discovered_value ← params_get id_196;
       _check_against_discovery (raw_value (entry_raw reallocated_events))
         discovered_value "Reallocated events" "harddrive_reallocated_events";;
       check_levels (entry_value reallocated_events)
         (Some (entry_thresh reallocated_events, entry_thresh reallocated_events))
         None None "Normalized value"))
    (fun p => block_196 disk (id_196 p)).
Proof.
  unfold block_196.
  apply (yields_when_some (by_id disk 196) _
           (fun entry p =>
              regression_items (raw_value (entry_raw entry)) (id_196 p)
                "Reallocated events" "harddrive_reallocated_events"
              ++ [normalized_result entry])).
  intros entry env. rewrite !run_bind. cbn.
  unfold regression_items, regression_result, normalized_result.
  destruct (id_196 (params env)) as [b|]; cbn.
  - rewrite Z.gtb_ltb.
    destruct (b <? _)%Z, (entry_value entry <? entry_thresh entry)%Z; reflexivity.
  - destruct (entry_value entry <? entry_thresh entry)%Z; reflexivity.
Qed.

Lemma yields_block_199 (disk : ATAAll) :
  yields
    (when_some (by_id disk 199) (fun crc_errors =>
       if decide (entry_name crc_errors = "UDMA_CRC_Error_Count")
       then
         discovered_value ← params_get id_199;
         _check_against_discovery (raw_value (entry_raw crc_errors))
           discovered_value "UDMA CRC errors" "harddrive_udma_crc_errors"
       else
         discovered_value ← params_get id_199;
         _check_against_discovery (raw_value (entry_raw crc_errors))
           discovered_value "CRC errors" "harddrive_crc_errors"))
    (fun p => block_199 disk (id_199 p)).
Proof.
  unfold block_199.
  apply (yields_when_some (by_id disk 199) _
           (fun entry p =>
              regression_items (raw_value (entry_raw entry)) (id_199 p)
                (regression_label 199 entry) (regression_metric 199 entry))).
  intros entry. unfold regression_label, regression_metric, udma_name. cbn.
  destruct (decide (entry_name entry = "UDMA_CRC_Error_Count")) as [Hname|Hname].
  - rewrite (proj2 (String.eqb_eq _ _) Hname). apply yields_regression.
  - rewrite (proj2 (String.eqb_neq _ _) Hname). apply yields_regression.
Qed.

Lemma yields_after_timeout (disk : ATAAll) :
  yields
    (when_some (by_id disk 196) (fun reallocated_events =>
       discovered_value ← params_get id_196;
       _check_against_discovery (raw_value (entry_raw reallocated_events))
         discovered_value "Reallocated events" "harddrive_reallocated_events";;
       check_levels (entry_value reallocated_events)
         (Some (entry_thresh reallocated_events, entry_thresh reallocated_events))
         None None "Normalized value");;
     when_some (by_id disk 197) (fun pending_sectors =>
       discovered_value ← params_get id_197;
       _check_against_discovery (raw_value (entry_raw pending_sectors))
         discovered_value "Pending sectors" "harddrive_pending_sectors");;
     when_some (by_id disk 199) (fun crc_errors =>
       if decide (entry_name crc_errors = "UDMA_CRC_Error_Count")
       then
         discovered_value ← params_get id_199;
         _check_against_discovery (raw_value (entry_raw crc_errors))
           discovered_value "UDMA CRC errors" "harddrive_udma_crc_errors"
       else
         discovered_value ← params_get id_199;
         _check_against_discovery (raw_value (entry_raw crc_errors))
           discovered_value "CRC errors" "harddrive_crc_errors"))
    (fun p => after_timeout p disk).
Proof.
  unfold after_timeout.
  apply yields_seq; [apply yields_block_196|].
  apply yields_seq; [apply yields_block_regression | apply yields_block_199].
Qed.

End Blocks.

(** ** The rate check of attribute 188 *)

Lemma get_rate_run {P} (k : string) (time : float) (value : Z) (env : Env P) :
  run (get_rate k time value) env
  = mkRun [] (rate_answer k (value_store env !! k) time value)
      (mkEnv (params env) (<[k := Sample time value]> (value_store env))).
Proof.
  unfold get_rate, rate_answer, float_of_int, truediv, run, store_get, store_set.
  unfold mbind, gen_bind, mret, gen_ret, raise. cbn [emitted outcome final params value_store].
  destruct (value_store env !! k) as [[last_time last_value|repr]|]; try reflexivity.
  destruct (PrimFloat.leb time last_time); [reflexivity|].
  destruct (PrimFloat.is_infinity (nearest_float (value - last_value))); [reflexivity|].
  cbn [emitted outcome final params value_store].
  destruct (PrimFloat.is_zero (PrimFloat.sub time last_time)); reflexivity.
Qed.

Lemma command_timeout_absent {P} (disk : ATAAll) (now : float) (env : Env P) :
  by_id disk 188 = None ->
  run (_check_command_timeout disk now) env = mkRun [] (inr tt) env.
Proof. intros Habsent. unfold _check_command_timeout. rewrite Habsent. reflexivity. Qed.

Lemma command_timeout_present {P} (disk : ATAAll) (now : float) (env : Env P)
    (counter : ATATableEntry) :
  by_id disk 188 = Some counter ->
  let raw := raw_value (entry_raw counter) in
  let g := run (get_rate "cmd_timeout" now raw) env in
  run (_check_command_timeout disk now) env =
  match outcome g with
  | inl e => mkRun [] (inl e) (final g)
  | inr rate =>
      mkRun [timeout_result raw rate; Metric "harddrive_cmd_timeouts" raw] (inr tt) (final g)
  end.
Proof.
  intros Hpresent raw g. unfold _check_command_timeout. rewrite Hpresent. cbn [when_some].
  rewrite run_bind. fold raw. fold g.
  assert (emitted g = []) as -> by (unfold g; rewrite get_rate_run; reflexivity).
  destruct (outcome g) as [e|rate]; [reflexivity|].
  unfold timeout_result. rewrite run_bind.
  destruct (PrimFloat.leb rate_ceiling rate); reflexivity.
Qed.

Lemma command_timeout_params {P} (disk : ATAAll) (now : float) (env : Env P) :
  params (final (run (_check_command_timeout disk now) env)) = params env.
Proof.
  destruct (by_id disk 188) as [counter|] eqn:Hid.
  - rewrite (command_timeout_present disk now env counter Hid).
    destruct (outcome _); cbn; rewrite get_rate_run; reflexivity.
  - rewrite (command_timeout_absent disk now env Hid). reflexivity.
Qed.

(** ** The attribute check as the sequence of its blocks *)

Lemma run_params_bind {P A B} (field : P -> A) (f : A -> Gen P B) (env : Env P) :
  run (params_get field ≫= f) env = run (f (field (params env))) env.
Proof. rewrite run_bind. cbn. apply run_eta. Qed.

Section Sequence.
Context `{Host}.

Lemma check_smart_ata_unresolved (item : string) (section : SmartSection) (now : float)
    (env : Env AtaParams) :
  resolve section (key (params env)) = None ->
  run (_check_smart_ata item section now) env = mkRun [] (inr tt) env.
Proof.
  unfold resolve, _check_smart_ata. intros Hnone. rewrite run_bind. cbn.
  destruct (devices_get (devices section) (key (params env))) as [[d|d|d]|];
    try discriminate; reflexivity.
Qed.

Lemma check_smart_ata_resolved (item : string) (section : SmartSection) (now : float)
    (env : Env AtaParams) (disk : ATAAll) :
  resolve section (key (params env)) = Some disk ->
  let t := run (_check_command_timeout disk now) env in
  run (_check_smart_ata item section now) env =
  match outcome t with
  | inl e => mkRun (before_timeout (params env) disk ++ emitted t) (inl e) (final t)
  | inr _ =>
      mkRun (before_timeout (params env) disk ++ emitted t ++ after_timeout (params env) disk)
        (inr tt) (final t)
  end.
Proof.
  intros Hdisk. cbv zeta. unfold resolve in Hdisk.
  assert (devices_get (devices section) (key (params env)) = Some (DiskATA disk)) as Hget.
  { destruct (devices_get _ _) as [[d|d|d]|]; congruence. }
  unfold before_timeout, after_timeout, _check_smart_ata.
  rewrite run_params_bind, Hget.
  rewrite (run_yields_bind _ _ _ env (yields_block_regression disk 5 id_5 _ _)).
  rewrite (run_yields_bind _ _ _ env (yields_block_plain disk 9 render_timespan _ _)).
  rewrite (run_yields_bind _ _ _ env (yields_block_regression disk 10 id_10 _ _)).
  rewrite (run_yields_bind _ _ _ env (yields_block_plain disk 12 str _ _)).
  rewrite (run_yields_bind _ _ _ env (yields_block_regression disk 184 id_184 _ _)).
  rewrite (run_yields_bind _ _ _ env (yields_block_regression disk 187 id_187 _ _)).
  rewrite (run_bind_yields _ _ _ env (yields_after_timeout disk)).
  rewrite (command_timeout_params disk now env).
  destruct (outcome (run (_check_command_timeout disk now) env));
    rewrite <- !app_assoc; reflexivity.
Qed.

End Sequence.

(** ** Telling the items of one attribute apart *)

Lemma prefix_append (a b : string) : String.prefix a (a +:+ b) = true.
Proof.
  induction a as [|c a IH].
  - by destruct b.
  - change (String.prefix (String c a) (String c (a +:+ b)) = true).
    cbn [String.prefix]. destruct (Ascii.ascii_dec c c); [exact IH | congruence].
Qed.

Lemma append_assoc3 (a b c : string) : (a +:+ b) +:+ c = a +:+ b +:+ c.
Proof.
  induction a as [|x a IH]; [reflexivity|].
  change (String x ((a +:+ b) +:+ c) = String x (a +:+ b +:+ c)). by rewrite IH.
Qed.

Lemma prefix_label (l rest : string) : String.prefix (l +:+ ": ") (l +:+ ": " +:+ rest) = true.
Proof. rewrite <- append_assoc3. apply prefix_append. Qed.

Lemma about_app (L M : string) (xs ys : list CheckItem) :
  about L M (xs ++ ys) = about L M xs ++ about L M ys.
Proof. apply List.filter_app. Qed.

Lemma about_items_own (l m : string) (value : Z) (baseline : option Z) :
  about l m (regression_items value baseline l m) = regression_items value baseline l m.
Proof.
  unfold about, regression_items, regression_result.
  destruct baseline as [b|]; [destruct (value >? b)%Z|]; cbn;
    rewrite prefix_label, String.eqb_refl; reflexivity.
Qed.

Lemma about_items_foreign (L M l m : string) (value : Z) (baseline : option Z) :
  foreign L M l m -> about L M (regression_items value baseline l m) = [].
Proof.
  intros [Hl Hm]. unfold about, regression_items, regression_result.
  destruct baseline as [b|]; [destruct (value >? b)%Z|]; cbn;
    rewrite Hl, Hm; reflexivity.
Qed.

Lemma about_block_regression_own (disk : ATAAll) (n : Z) (entry : ATATableEntry)
    (baseline : option Z) (l m : string) :
  by_id disk n = Some entry ->
  about l m (block_regression disk n baseline l m)
  = regression_items (raw_value (entry_raw entry)) baseline l m.
Proof. intros Hid. unfold block_regression. rewrite Hid. apply about_items_own. Qed.

Lemma about_block_regression_foreign (L M : string) (disk : ATAAll) (n : Z)
    (baseline : option Z) (l m : string) :
  foreign L M l m -> about L M (block_regression disk n baseline l m) = [].
Proof.
  intros Hf. unfold block_regression.
  destruct (by_id disk n); [by apply about_items_foreign | reflexivity].
Qed.

Lemma about_block_plain_foreign (L M : string) (disk : ATAAll) (n : Z)
    (render : Z -> string) (l m : string) :
  foreign L M l m -> about L M (block_plain disk n render l m) = [].
Proof.
  intros [Hl Hm]. unfold block_plain, about.
  destruct (by_id disk n); [|reflexivity]. cbn. rewrite Hl, Hm. reflexivity.
Qed.

Lemma about_timeout_foreign {P} (L M : string) (disk : ATAAll) (now : float) (env : Env P) :
  foreign L M "Command Timeout Counter" "harddrive_cmd_timeouts" ->
  about L M (emitted (run (_check_command_timeout disk now) env)) = [].
Proof.
  intros [Hl Hm]. destruct (by_id disk 188) as [counter|] eqn:Hid.
  - rewrite (command_timeout_present disk now env counter Hid).
    destruct (outcome _) as [e|rate]; [reflexivity|].
    unfold about, timeout_result. cbn [emitted].
    destruct (PrimFloat.leb rate_ceiling rate); cbn [List.filter concerns];
      rewrite Hm;
      match goal with
      | |- context [String.prefix ?a ?b] =>
          replace (String.prefix a b) with false by (symmetry; exact (Hl _))
      end; reflexivity.
  - rewrite (command_timeout_absent disk now env Hid). reflexivity.
Qed.

Section About.
Context `{Host}.

Lemma about_normalized_foreign (L M : string) (entry : ATATableEntry) :
  (forall rest, String.prefix (L +:+ ": ") ("Normalized value: " +:+ rest) = false) ->
  about L M [normalized_result entry] = [].
Proof.
  intros Hl. unfold about, normalized_result.
  destruct (entry_value entry <? entry_thresh entry)%Z; cbn [List.filter concerns];
    match goal with
    | |- context [String.prefix ?a ?b] =>
        replace (String.prefix a b) with false by (symmetry; exact (Hl _))
    end; reflexivity.
Qed.

Lemma about_normalized_own (entry : ATATableEntry) :
  about "Normalized value" no_metric [normalized_result entry] = [normalized_result entry].
Proof.
  unfold about, normalized_result.
  destruct (entry_value entry <? entry_thresh entry)%Z; cbn [List.filter concerns];
    match goal with
    | |- context [String.prefix ?a ?b] =>
        replace (String.prefix a b) with true
          by (symmetry; exact (prefix_append "Normalized value: " _))
    end; reflexivity.
Qed.

Lemma about_block_196_foreign (L M : string) (disk : ATAAll) (baseline : option Z) :
  foreign L M "Reallocated events" "harddrive_reallocated_events" ->
  foreign L M "Normalized value" no_metric ->
  about L M (block_196 disk baseline) = [].
Proof.
  intros Hf [Hn _]. unfold block_196. destruct (by_id disk 196); [|reflexivity].
  rewrite about_app, (about_items_foreign _ _ _ _ _ _ Hf), about_normalized_foreign;
    [reflexivity | exact Hn].
Qed.

Lemma about_block_196_regression (disk : ATAAll) (entry : ATATableEntry)
    (baseline : option Z) :
  by_id disk 196 = Some entry ->
  about "Reallocated events" "harddrive_reallocated_events" (block_196 disk baseline)
  = regression_items (raw_value (entry_raw entry)) baseline
      "Reallocated events" "harddrive_reallocated_events".
Proof.
  intros Hid. unfold block_196. rewrite Hid, about_app, about_items_own.
  rewrite about_normalized_foreign; [apply app_nil_r | intros rest; reflexivity].
Qed.

Lemma about_block_196_normalized (disk : ATAAll) (entry : ATATableEntry)
    (baseline : option Z) :
  by_id disk 196 = Some entry ->
  about "Normalized value" no_metric (block_196 disk baseline) = [normalized_result entry].
Proof.
  intros Hid. unfold block_196. rewrite Hid, about_app, about_normalized_own.
  rewrite about_items_foreign; [reflexivity | by split].
Qed.

End About.

Lemma about_block_199_foreign (L M : string) (disk : ATAAll) (baseline : option Z) :
  foreign L M "UDMA CRC errors" "harddrive_udma_crc_errors" ->
  foreign L M "CRC errors" "harddrive_crc_errors" ->
  about L M (block_199 disk baseline) = [].
Proof.
  intros Hu Hc. unfold block_199, regression_label, regression_metric.
  destruct (by_id disk 199) as [entry|]; [|reflexivity].
  change (199 =? 5)%Z with false. change (199 =? 10)%Z with false.
  change (199 =? 184)%Z with false. change (199 =? 187)%Z with false.
  change (199 =? 196)%Z with false. change (199 =? 197)%Z with false. cbv iota.
  generalize (String.eqb (entry_name entry) udma_name).
  intros []; apply about_items_foreign; [exact Hu | exact Hc].
Qed.

Lemma about_block_199_own (disk : ATAAll) (entry : ATATableEntry) (baseline : option Z) :
  by_id disk 199 = Some entry ->
  about (regression_label 199 entry) (regression_metric 199 entry) (block_199 disk baseline)
  = regression_items (raw_value (entry_raw entry)) baseline
      (regression_label 199 entry) (regression_metric 199 entry).
Proof. intros Hid. unfold block_199. rewrite Hid. apply about_items_own. Qed.

(** Closes a side condition [foreign L M l m] on concrete strings. *)
Ltac solve_foreign := split; [intros ?; reflexivity | reflexivity].

(** ** A run of the attribute check, attribute by attribute *)

(** Rewrites the items about a label in the blocks of a run: a block keeps
    its own items and contributes nothing about a foreign label. *)
Ltac about_blocks own :=
  unfold before_timeout, after_timeout;
  repeat rewrite about_app;
  own;
  repeat first
    [ rewrite about_block_regression_foreign by solve_foreign
    | rewrite about_block_plain_foreign by solve_foreign
    | rewrite about_timeout_foreign by solve_foreign
    | rewrite about_block_196_foreign by solve_foreign
    | rewrite about_block_199_foreign by solve_foreign ];
  cbn [app]; rewrite ?app_nil_r.

Section Attributes.
Context `{Host}.
Context (item : string) (section : SmartSection) (now : float).

Lemma about_run (L M : string) (env : Env AtaParams) (disk : ATAAll) :
  resolve section (key (params env)) = Some disk ->
  let t := run (_check_command_timeout disk now) env in
  about L M (emitted (run (_check_smart_ata item section now) env))
  = about L M (before_timeout (params env) disk)
    ++ about L M (emitted t)
    ++ match outcome t with
       | inl _ => []
       | inr _ => about L M (after_timeout (params env) disk)
       end.
Proof.
  intros Hdisk t. rewrite (check_smart_ata_resolved item section now env disk Hdisk).
  fold t. destruct (outcome t); cbn [emitted]; rewrite !about_app, ?app_nil_r; reflexivity.
Qed.

Lemma about_early (env : Env AtaParams) (disk : ATAAll) (n : Z) (entry : ATATableEntry) :
  resolve section (key (params env)) = Some disk ->
  In n early_ids ->
  by_id disk n = Some entry ->
  about (regression_label n entry) (regression_metric n entry)
    (emitted (run (_check_smart_ata item section now) env))
  = regression_items (raw_value (entry_raw entry)) (recorded (params env) n)
      (regression_label n entry) (regression_metric n entry).
Proof.
  intros Hdisk Hn Hid. rewrite (about_run _ _ env disk Hdisk).
  cbn in Hn. destruct Hn as [<-|[<-|[<-|[<-|[]]]]];
    change (regression_label _ entry) with "Reallocated sectors" ||
    change (regression_label _ entry) with "Spin retries" ||
    change (regression_label _ entry) with "End-to-End Errors" ||
    change (regression_label _ entry) with "Uncorrectable errors";
    change (regression_metric _ entry) with "harddrive_reallocated_sectors" ||
    change (regression_metric _ entry) with "harddrive_spin_retries" ||
    change (regression_metric _ entry) with "harddrive_end_to_end_errors" ||
    change (regression_metric _ entry) with "harddrive_uncorrectable_errors";
    (destruct (outcome _);
     about_blocks ltac:(rewrite (about_block_regression_own _ _ _ _ _ _ Hid));
     reflexivity).
Qed.

Lemma about_late (env : Env AtaParams) (disk : ATAAll) (n : Z) (entry : ATATableEntry) :
  resolve section (key (params env)) = Some disk ->
  In n [196; 197; 199] ->
  by_id disk n = Some entry ->
  reached now disk env ->
  about (regression_label n entry) (regression_metric n entry)
    (emitted (run (_check_smart_ata item section now) env))
  = regression_items (raw_value (entry_raw entry)) (recorded (params env) n)
      (regression_label n entry) (regression_metric n entry).
Proof.
  intros Hdisk Hn Hid Hreached. rewrite (about_run _ _ env disk Hdisk).
  unfold reached in Hreached. rewrite Hreached.
  cbn in Hn. destruct Hn as [<-|[<-|[<-|[]]]].
  - change (regression_label _ entry) with "Reallocated events".
    change (regression_metric _ entry) with "harddrive_reallocated_events".
    about_blocks ltac:(rewrite (about_block_196_regression _ _ _ Hid)). reflexivity.
  - change (regression_label _ entry) with "Pending sectors".
    change (regression_metric _ entry) with "harddrive_pending_sectors".
    about_blocks ltac:(rewrite (about_block_regression_own _ _ _ _ _ _ Hid)). reflexivity.
  - unfold before_timeout, after_timeout. rewrite !about_app.
    rewrite (about_block_199_own _ _ _ Hid).
    unfold regression_label, regression_metric.
    change (199 =? 5)%Z with false. change (199 =? 10)%Z with false.
    change (199 =? 184)%Z with false. change (199 =? 187)%Z with false.
    change (199 =? 196)%Z with false. change (199 =? 197)%Z with false. cbv iota.
    generalize (String.eqb (entry_name entry) udma_name).
    intros []; about_blocks idtac; reflexivity.
Qed.

End Attributes.

(** ** The labels of attributes 196 and 199 in a run *)

Lemma about_block_199_udma_only (disk : ATAAll) (entry : ATATableEntry) (baseline : option Z) :
  by_id disk 199 = Some entry ->
  entry_name entry = udma_name ->
  about "UDMA CRC errors" "harddrive_udma_crc_errors" (block_199 disk baseline)
  = regression_items (raw_value (entry_raw entry)) baseline
      "UDMA CRC errors" "harddrive_udma_crc_errors"
  /\ about "CRC errors" "harddrive_crc_errors" (block_199 disk baseline) = [].
Proof.
  intros Hid Hname. unfold block_199, regression_label, regression_metric.
  rewrite Hid, Hname. split; [apply about_items_own | apply about_items_foreign; solve_foreign].
Qed.

Lemma about_block_199_generic_only (disk : ATAAll) (entry : ATATableEntry) (baseline : option Z) :
  by_id disk 199 = Some entry ->
  entry_name entry <> udma_name ->
  about "CRC errors" "harddrive_crc_errors" (block_199 disk baseline)
  = regression_items (raw_value (entry_raw entry)) baseline "CRC errors" "harddrive_crc_errors"
  /\ about "UDMA CRC errors" "harddrive_udma_crc_errors" (block_199 disk baseline) = [].
Proof.
  intros Hid Hname. unfold block_199, regression_label, regression_metric.
  rewrite Hid. apply String.eqb_neq in Hname.
  change (199 =? 5)%Z with false. change (199 =? 10)%Z with false.
  change (199 =? 184)%Z with false. change (199 =? 187)%Z with false.
  change (199 =? 196)%Z with false. change (199 =? 197)%Z with false. cbv iota.
  rewrite Hname. split; [apply about_items_own | apply about_items_foreign; solve_foreign].
Qed.

Lemma about_block_199_never_both (disk : ATAAll) (baseline : option Z) :
  about "UDMA CRC errors" "harddrive_udma_crc_errors" (block_199 disk baseline) = []
  \/ about "CRC errors" "harddrive_crc_errors" (block_199 disk baseline) = [].
Proof.
  destruct (by_id disk 199) as [entry|] eqn:Hid.
  - destruct (decide (entry_name entry = udma_name)) as [Hname|Hname].
    + right. exact (proj2 (about_block_199_udma_only disk entry baseline Hid Hname)).
    + left. exact (proj2 (about_block_199_generic_only disk entry baseline Hid Hname)).
  - left. unfold block_199. rewrite Hid. reflexivity.
Qed.

Section Labels.
Context `{Host}.
Context (item : string) (section : SmartSection) (now : float).

Lemma about_normalized_run (env : Env AtaParams) (disk : ATAAll) (entry : ATATableEntry) :
  resolve section (key (params env)) = Some disk ->
  by_id disk 196 = Some entry ->
  reached now disk env ->
  about "Normalized value" no_metric (emitted (run (_check_smart_ata item section now) env))
  = [normalized_result entry].
Proof.
  intros Hdisk Hid Hreached. rewrite (about_run item section now _ _ env disk Hdisk).
  unfold reached in Hreached. rewrite Hreached.
  about_blocks ltac:(rewrite (about_block_196_normalized _ _ _ Hid)). reflexivity.
Qed.

(** The items of a run under one of the labels of attribute 199 are those
    of its block, when the run comes to it. *)
Lemma about_crc_run (L M : string) (env : Env AtaParams) (disk : ATAAll) :
  (L = "UDMA CRC errors" /\ M = "harddrive_udma_crc_errors")
  \/ (L = "CRC errors" /\ M = "harddrive_crc_errors") ->
  resolve section (key (params env)) = Some disk ->
  about L M (emitted (run (_check_smart_ata item section now) env))
  = match outcome (run (_check_command_timeout disk now) env) with
    | inl _ => []
    | inr _ => about L M (block_199 disk (id_199 (params env)))
    end.
Proof.
  intros HLM Hdisk. rewrite (about_run item section now _ _ env disk Hdisk).
  destruct HLM as [[-> ->]|[-> ->]]; destruct (outcome _); about_blocks idtac; reflexivity.
Qed.

End Labels.

(** ** The rate check, in terms of the slot of the store it uses *)

(** What [_check_command_timeout] yields and how it ends, given the object
    under ["cmd_timeout"]. *)
Lemma command_timeout_run {P} (disk : ATAAll) (now : float) (env : Env P) :
  run (_check_command_timeout disk now) env =
  match by_id disk 188 with
  | None => mkRun [] (inr tt) env
  | Some counter =>
      let raw := raw_value (entry_raw counter) in
      let primed_env :=
        mkEnv (params env) (<["cmd_timeout" := Sample now raw]> (value_store env)) in
      match rate_answer "cmd_timeout" (value_store env !! "cmd_timeout") now raw with
      | inl e => mkRun [] (inl e) primed_env
      | inr rate =>
          mkRun [timeout_result raw rate; Metric "harddrive_cmd_timeouts" raw] (inr tt)
            primed_env
      end
  end.
Proof.
  destruct (by_id disk 188) as [counter|] eqn:Hid.
  - rewrite (command_timeout_present disk now env counter Hid). cbv zeta.
    rewrite get_rate_run. cbn [outcome final]. reflexivity.
  - exact (command_timeout_absent disk now env Hid).
Qed.

(** The rate check reads nothing but that slot: two environments that agree
    on it get the same items and the same outcome, whatever their
    parameters are. *)
Lemma command_timeout_slot {P Q} (disk : ATAAll) (now : float) (env : Env P) (env' : Env Q) :
  value_store env !! "cmd_timeout" = value_store env' !! "cmd_timeout" ->
  emitted (run (_check_command_timeout disk now) env)
  = emitted (run (_check_command_timeout disk now) env')
  /\ outcome (run (_check_command_timeout disk now) env)
     = outcome (run (_check_command_timeout disk now) env').
Proof.
  intros Hslot. rewrite !command_timeout_run, Hslot.
  destruct (by_id disk 188); [|by split]. cbv zeta.
  destruct (rate_answer _ _ _ _); by split.
Qed.

(** A run gets past the rate check exactly when attribute 188 is absent
    or [get_rate] returns a rate. *)
Lemma reached_iff (now : float) (disk : ATAAll) (env : Env AtaParams) :
  reached now disk env
  <-> by_id disk 188 = None
      \/ exists counter rate,
           by_id disk 188 = Some counter
           /\ outcome (run (get_rate "cmd_timeout" now (raw_value (entry_raw counter))) env)
              = inr rate.
Proof.
  unfold reached. rewrite command_timeout_run.
  destruct (by_id disk 188) as [counter|]; [|by split; [left|]]. cbv zeta. split.
  - intros Hreached. right. exists counter. rewrite get_rate_run. cbn [outcome].
    destruct (rate_answer _ _ _ _) as [e|rate]; [discriminate | by exists rate].
  - intros [Habsent | (counter' & rate & Hid & Hrate)]; [discriminate|].
    injection Hid as <-. rewrite get_rate_run in Hrate. cbn [outcome] in Hrate.
    rewrite Hrate. reflexivity.
Qed.

Lemma about_timeout_own {P} (disk : ATAAll) (now : float) (env : Env P) :
  about "Command Timeout Counter" "harddrive_cmd_timeouts"
    (emitted (run (_check_command_timeout disk now) env))
  = emitted (run (_check_command_timeout disk now) env).
Proof.
  rewrite command_timeout_run. destruct (by_id disk 188); [|reflexivity]. cbv zeta.
  destruct (rate_answer _ _ _ _) as [e|rate]; [reflexivity|].
  unfold timeout_result, about. cbn [emitted].
  destruct (PrimFloat.leb rate_ceiling rate); cbn [List.filter concerns];
    match goal with
    | |- context [String.prefix ?a ?b] =>
        replace (String.prefix a b) with true
          by (symmetry; exact (prefix_append "Command Timeout Counter: " _))
    end; reflexivity.
Qed.

Section CommandTimeout.
Context `{Host}.
Context (item : string) (section : SmartSection) (now : float).

Lemma about_timeout_run (env : Env AtaParams) (disk : ATAAll) :
  resolve section (key (params env)) = Some disk ->
  about "Command Timeout Counter" "harddrive_cmd_timeouts"
    (emitted (run (_check_smart_ata item section now) env))
  = emitted (run (_check_command_timeout disk now) env).
Proof.
  intros Hdisk. rewrite (about_run item section now _ _ env disk Hdisk).
  destruct (outcome _); about_blocks ltac:(rewrite about_timeout_own); reflexivity.
Qed.

(** The final store of a run: the sample of attribute 188 is written when
    the disk resolves and has the attribute, and nothing else. *)
Lemma check_smart_ata_final (env : Env AtaParams) :
  final (run (_check_smart_ata item section now) env)
  = match resolve section (key (params env)) with
    | Some disk =>
        match by_id disk 188 with
        | Some counter =>
            mkEnv (params env)
              (<["cmd_timeout" := Sample now (raw_value (entry_raw counter))]>
                 (value_store env))
        | None => env
        end
    | None => env
    end.
Proof.
  destruct (resolve section (key (params env))) as [disk|] eqn:Hdisk.
  - rewrite (check_smart_ata_resolved item section now env disk Hdisk).
    assert (final (run (_check_command_timeout disk now) env)
            = match by_id disk 188 with
              | Some counter =>
                  mkEnv (params env)
                    (<["cmd_timeout" := Sample now (raw_value (entry_raw counter))]>
                       (value_store env))
              | None => env
              end) as Hfinal.
    { rewrite command_timeout_run. destruct (by_id disk 188); [|reflexivity]. cbv zeta.
      destruct (rate_answer _ _ _ _); reflexivity. }
    destruct (outcome _); cbn [final]; exact Hfinal.
  - rewrite (check_smart_ata_unresolved item section now env Hdisk). reflexivity.
Qed.

End CommandTimeout.

(** ** Calling [get_rate] again at the same time *)

(** A time that is not at or before itself is not a number, and neither is
    its difference with itself: in particular that difference is not zero. *)
Lemma sub_self_not_zero (x : float) :
  PrimFloat.leb x x = false -> PrimFloat.is_zero (PrimFloat.sub x x) = false.
Proof.
  intros Hleb. unfold PrimFloat.is_zero. rewrite FloatAxioms.eqb_spec, FloatAxioms.sub_spec.
  rewrite FloatAxioms.leb_spec in Hleb.
  destruct (Prim2SF x) as [s|s| |s m e].
  - destruct s; discriminate.
  - destruct s; discriminate.
  - reflexivity.
  - exfalso. unfold SFleb, SFcompare in Hleb.
    rewrite Z.compare_refl, Pos.compare_cont_refl in Hleb. destruct s; discriminate.
Qed.

Lemma rate_answer_replay (k : string) (time : float) (value : Z) :
  rate_answer k (Some (Sample time value)) time value <> inl ZeroDivisionError.
Proof.
  unfold rate_answer. destruct (PrimFloat.leb time time) eqn:Hleb; [discriminate|].
  rewrite Z.sub_diag.
  change (PrimFloat.is_infinity (nearest_float 0)) with false. cbv iota.
  rewrite (sub_self_not_zero time Hleb). discriminate.
Qed.

Lemma command_timeout_replay {P} (disk : ATAAll) (now : float) (env : Env P) :
  let first := run (_check_command_timeout disk now) env in
  outcome (run (_check_command_timeout disk now) (final first)) <> inl ZeroDivisionError.
Proof.
  cbv zeta. rewrite (command_timeout_run disk now env).
  destruct (by_id disk 188) as [counter|] eqn:Hid.
  - cbv zeta.
    set (primed_env := mkEnv (params env) _).
    assert (value_store primed_env !! "cmd_timeout"
            = Some (Sample now (raw_value (entry_raw counter)))) as Hslot
      by apply lookup_insert_eq.
    assert (outcome (run (_check_command_timeout disk now) primed_env)
            <> inl ZeroDivisionError) as Hreplay.
    { rewrite command_timeout_run, Hid. cbv zeta. rewrite Hslot.
      destruct (rate_answer _ _ _ _) as [e|rate] eqn:Hanswer; cbn [outcome]; [|discriminate].
      intros Heq. injection Heq as ->. exact (rate_answer_replay _ _ _ Hanswer). }
    destruct (rate_answer _ _ _ _); exact Hreplay.
  - cbn [final]. rewrite command_timeout_absent by exact Hid. discriminate.
Qed.

(** * The specification, statement by statement *)

(** ** The regression-vs-baseline rule *)

(** C1, as amended. For an attribute of the regression set present on the
    resolved disk, the items of the run about that attribute are exactly one
    result and one metric carrying the current raw value: the result is OK
    when no baseline was recorded, CRITICAL with both values in its message
    when the raw value exceeds the recorded baseline, OK when it does not
    (equal included). This holds for IDs 5, 10, 184 and 187 in every run,
    and for 196, 197 and 199 in the runs that get past the rate check of
    attribute 188. *)
Theorem regression_rule_in_run `{Host} (item : string) (section : SmartSection)
    (now : float) (env : Env AtaParams) (disk : ATAAll) (n : Z) (entry : ATATableEntry) :
  resolve section (key (params env)) = Some disk ->
  In n regression_ids ->
  by_id disk n = Some entry ->
  In n early_ids \/ reached now disk env ->
  let value := raw_value (entry_raw entry) in
  let label := regression_label n entry in
  let metric_name := regression_metric n entry in
  let items :=
    about label metric_name (emitted (run (_check_smart_ata item section now) env)) in
  (recorded (params env) n = None ->
   items = [Result OK (label +:+ ": " +:+ str value); Metric metric_name value])
  /\ (forall B, recorded (params env) n = Some B -> (B < value)%Z ->
      items = [Result CRIT (label +:+ ": " +:+ str value +:+ " (during discovery: "
                            +:+ str B +:+ ") (!!)");
               Metric metric_name value])
  /\ (forall B, recorded (params env) n = Some B -> (value <= B)%Z ->
      items = [Result OK (label +:+ ": " +:+ str value); Metric metric_name value]).
Proof.
  intros Hdisk Hn Hid Hreach value label metric_name items.
  assert (items = regression_items value (recorded (params env) n) label metric_name)
    as Hitems.
  { unfold items, label, metric_name, value.
    assert (In n early_ids \/ (In n [196; 197; 199] /\ reached now disk env))
      as [Hearly|[Hlate Hr]].
    { cbn in Hn, Hreach |- *. intuition (subst; auto; lia). }
    - exact (about_early item section now env disk n entry Hdisk Hearly Hid).
    - exact (about_late item section now env disk n entry Hdisk Hlate Hid Hr). }
  rewrite Hitems. unfold regression_items, regression_result.
  split; [|split].
  - intros ->. reflexivity.
  - intros B -> HB. by rewrite (proj2 (Z.gtb_lt value B) HB).
  - intros B -> HB.
    destruct (value >? B)%Z eqn:Hgt; [apply Z.gtb_lt in Hgt; lia | reflexivity].
Qed.

(** C1, a run of the rule: attribute 197 with raw value 9 against the
    recorded baseline 4, on a primed store. *)
Lemma regression_rule_in_run_witness :
  about "Pending sectors" "harddrive_pending_sectors"
    (emitted (run (_check_smart_ata (H := example_host) "sda"
                     (section_of (DiskATA worn_disk)) (nearest_float 3600))
                (mkEnv worn_baseline (primed (nearest_float 0) 0))))
  = [Result CRIT "Pending sectors: 9 (during discovery: 4) (!!)";
     Metric "harddrive_pending_sectors" 9].
Proof.
  refine (proj1 (proj2 (regression_rule_in_run (H := example_host) "sda"
            (section_of (DiskATA worn_disk)) (nearest_float 3600)
            (mkEnv worn_baseline (primed (nearest_float 0) 0)) worn_disk 197
            (attr 197 "Current_Pending_Sector" 100 0 9) _ _ _ _)) 4 _ _).
  - reflexivity.
  - cbn. tauto.
  - reflexivity.
  - right. vm_compute. reflexivity.
  - reflexivity.
  - reflexivity.
Defined.

(** C1 fails as stated: attribute 197 is present on the resolved disk and
    has no recorded baseline, but on the first run the rate check of
    attribute 188 finds no earlier sample, raises, and the run ends before
    197: no OK result and no metric for it. *)
Lemma regression_rule_counterexample :
  let r := run (_check_smart_ata (H := example_host) "sda"
                  (section_of (DiskATA worn_disk)) (nearest_float 3600))
             (mkEnv no_baseline ∅) in
  resolve (section_of (DiskATA worn_disk)) (key no_baseline) = Some worn_disk
  /\ In 197 regression_ids
  /\ by_id worn_disk 197 = Some (attr 197 "Current_Pending_Sector" 100 0 9)
  /\ recorded no_baseline 197 = None
  /\ about "Pending sectors" "harddrive_pending_sectors" (emitted r) = []
  /\ outcome r = inl (GetRateError "Initialized: 'cmd_timeout'").
Proof. vm_compute. tauto. Qed.

(** ** Attribute 188: the rate rule only *)

(** C2. The attribute check does not look at the baseline recorded for
    attribute 188: with any other value for [id_188], null or not, a run
    yields the same items, ends the same way and leaves the same store. The
    items of a run about attribute 188 are those of the rate check, which
    takes no baseline parameters at all. *)
Theorem command_timeout_ignores_baseline `{Host} (item : string) (section : SmartSection)
    (now : float) (p : AtaParams) (store : gmap string object) (b : option Z) :
  let r := run (_check_smart_ata item section now) (mkEnv p store) in
  let r' := run (_check_smart_ata item section now) (mkEnv (with_id_188 b p) store) in
  emitted r' = emitted r
  /\ outcome r' = outcome r
  /\ value_store (final r') = value_store (final r)
  /\ about "Command Timeout Counter" "harddrive_cmd_timeouts" (emitted r)
     = match resolve section (key p) with
       | Some disk => emitted (run (_check_command_timeout disk now) (mkEnv tt store))
       | None => []
       end.
Proof.
  intros r r'.
  assert (emitted r' = emitted r /\ outcome r' = outcome r
          /\ value_store (final r') = value_store (final r)) as Hsame.
  { unfold r, r'. destruct (resolve section (key p)) as [disk|] eqn:Hdisk.
    - rewrite (check_smart_ata_resolved item section now (mkEnv p store) disk Hdisk).
      rewrite (check_smart_ata_resolved item section now
                 (mkEnv (with_id_188 b p) store) disk Hdisk).
      rewrite !command_timeout_run. cbn [params value_store].
      destruct (by_id disk 188); cbv zeta; [destruct (rate_answer _ _ _ _)|];
        cbn [emitted outcome final value_store]; repeat split; reflexivity.
    - rewrite (check_smart_ata_unresolved item section now (mkEnv p store) Hdisk).
      rewrite (check_smart_ata_unresolved item section now
                 (mkEnv (with_id_188 b p) store) Hdisk).
      repeat split; reflexivity. }
  destruct Hsame as (He & Ho & Hs). repeat split; try assumption.
  unfold r. destruct (resolve section (key p)) as [disk|] eqn:Hdisk.
  - rewrite (about_timeout_run item section now (mkEnv p store) disk Hdisk).
    by apply command_timeout_slot.
  - by rewrite (check_smart_ata_unresolved item section now (mkEnv p store) Hdisk).
Qed.

(** ** The rate rule of attribute 188 *)

(** C3, as amended. If attribute 188 is absent the rate check yields
    nothing. Otherwise [get_rate] is asked for the per-second rate against
    the sample in the store, and the store is primed with the sample of this
    call however the call ends. When it returns a rate, as it does with an
    earlier sample and a later timestamp, that rate is (raw - previous) /
    (now - previous time); a rate of at least the ceiling 100/3600 yields
    CRITICAL with the raw value and the ceiling of 100 counts per hour in
    the message, a rate below it yields OK with the raw value, and a metric
    with the raw value follows in both cases. When it raises, as it does
    without an earlier sample and with a timestamp not after the stored one,
    nothing is yielded, no metric either, and the check ends there with that
    exception and the store primed. With the store primed at (value 0, time
    0), a call with (101, 3600) yields CRITICAL and a call with (50, 3600)
    yields OK. *)
Theorem command_timeout_rule {P} (disk : ATAAll) (now : float) (env : Env P) :
  let r := run (_check_command_timeout disk now) env in
  let slot := value_store env !! "cmd_timeout" in
  (by_id disk 188 = None -> r = mkRun [] (inr tt) env)
  /\ (forall counter, by_id disk 188 = Some counter ->
      let raw := raw_value (entry_raw counter) in
      let g := run (get_rate "cmd_timeout" now raw) env in
      (forall rate, outcome g = inr rate ->
         (forall t0 v0, slot = Some (Sample t0 v0) ->
            rate = PrimFloat.div (nearest_float (raw - v0)) (PrimFloat.sub now t0))
         /\ (PrimFloat.leb rate_ceiling rate = true ->
             emitted r
             = [Result CRIT ("Command Timeout Counter: " +:+ str raw
                             +:+ " (counter increased more than "
                             +:+ str MAX_COMMAND_TIMEOUTS_PER_HOUR +:+ " counts / h (!!))");
                Metric "harddrive_cmd_timeouts" raw])
         /\ (PrimFloat.leb rate_ceiling rate = false ->
             emitted r
             = [Result OK ("Command Timeout Counter: " +:+ str raw);
                Metric "harddrive_cmd_timeouts" raw]))
      /\ (forall e, outcome g = inl e -> emitted r = [] /\ outcome r = inl e)
      /\ (slot = None ->
          emitted r = [] /\ outcome r = inl (GetRateError "Initialized: 'cmd_timeout'"))
      /\ (slot = Some (Sample (nearest_float 0) 0) -> now = nearest_float 3600 ->
          (raw = 101 ->
           emitted r
           = [Result CRIT
                "Command Timeout Counter: 101 (counter increased more than 100 counts / h (!!))";
              Metric "harddrive_cmd_timeouts" 101])
          /\ (raw = 50 ->
              emitted r
              = [Result OK "Command Timeout Counter: 50";
                 Metric "harddrive_cmd_timeouts" 50]))
      /\ (forall t0 v0, slot = Some (Sample t0 v0) -> PrimFloat.leb now t0 = true ->
          emitted r = []
          /\ outcome r = inl (GetRateError "No time difference: 'cmd_timeout'"))
      /\ (forall t0 v0, slot = Some (Sample t0 v0) -> PrimFloat.leb now t0 = false ->
          PrimFloat.is_infinity (nearest_float (raw - v0)) = false ->
          PrimFloat.is_zero (PrimFloat.sub now t0) = false ->
          outcome g
          = inr (PrimFloat.div (nearest_float (raw - v0)) (PrimFloat.sub now t0)))
      /\ final r
         = mkEnv (params env) (<["cmd_timeout" := Sample now raw]> (value_store env))
      /\ final g = final r).
Proof.
  intros r slot. split.
  { intros Habsent. exact (command_timeout_absent disk now env Habsent). }
  intros counter Hid raw g.
  assert (r = match rate_answer "cmd_timeout" slot now raw with
              | inl e =>
                  mkRun [] (inl e)
                    (mkEnv (params env) (<["cmd_timeout" := Sample now raw]> (value_store env)))
              | inr rate =>
                  mkRun [timeout_result raw rate; Metric "harddrive_cmd_timeouts" raw] (inr tt)
                    (mkEnv (params env) (<["cmd_timeout" := Sample now raw]> (value_store env)))
              end) as Hr.
  { unfold r. rewrite command_timeout_run, Hid. reflexivity. }
  assert (outcome g = rate_answer "cmd_timeout" slot now raw) as Hg.
  { unfold g. rewrite get_rate_run. reflexivity. }
  assert (final g
          = mkEnv (params env) (<["cmd_timeout" := Sample now raw]> (value_store env)))
    as Hfinal.
  { unfold g. rewrite get_rate_run. reflexivity. }
  rewrite Hg, Hr, Hfinal. clear Hr Hg Hfinal.
  split; [|split; [|split; [|split; [|split; [|split; [|split]]]]]].
  - intros rate Hrate. rewrite Hrate. unfold timeout_result. split; [|split].
    + intros t0 v0 Hslot. rewrite Hslot in Hrate. unfold rate_answer in Hrate.
      destruct (PrimFloat.leb now t0); [discriminate|].
      destruct (PrimFloat.is_infinity _); [discriminate|].
      destruct (PrimFloat.is_zero _); [discriminate|]. congruence.
    + intros ->. reflexivity.
    + intros ->. reflexivity.
  - intros e ->. split; reflexivity.
  - intros ->. split; reflexivity.
  - intros -> ->. split; intros Hraw; rewrite Hraw; reflexivity.
  - intros t0 v0 -> Hleb. unfold rate_answer. rewrite Hleb. split; reflexivity.
  - intros t0 v0 -> Hleb Hfinite Hnonzero. unfold rate_answer.
    rewrite Hleb, Hfinite, Hnonzero. reflexivity.
  - destruct (rate_answer _ _ _ _); reflexivity.
  - destruct (rate_answer _ _ _ _); reflexivity.
Qed.

(** C3, the first example: the store primed at (0, 0), then (101, 3600). *)
Lemma command_timeout_rule_witness :
  emitted (run (_check_command_timeout worn_disk (nearest_float 3600))
             (mkEnv tt (primed (nearest_float 0) 0)))
  = [Result CRIT
       "Command Timeout Counter: 101 (counter increased more than 100 counts / h (!!))";
     Metric "harddrive_cmd_timeouts" 101].
Proof.
  exact (proj1 (proj1 (proj2 (proj2 (proj2
           (proj2 (command_timeout_rule worn_disk (nearest_float 3600)
                     (mkEnv tt (primed (nearest_float 0) 0)))
              (attr 188 "Command_Timeout" 100 0 101) eq_refl))))
           eq_refl eq_refl) eq_refl).
Defined.

(** C3 fails as stated: attribute 188 is present with raw value 101, but
    with no earlier sample in the store the rate check yields nothing, no
    metric either; it primes the store and ends with the exception of
    [get_rate]. *)
Lemma command_timeout_counterexample :
  let r := run (_check_command_timeout worn_disk (nearest_float 3600)) (mkEnv tt ∅) in
  by_id worn_disk 188 = Some (attr 188 "Command_Timeout" 100 0 101)
  /\ emitted r = []
  /\ outcome r = inl (GetRateError "Initialized: 'cmd_timeout'")
  /\ value_store (final r) !! "cmd_timeout" = Some (Sample (nearest_float 3600) 101).
Proof. vm_compute. tauto. Qed.

(** ** Attribute 196: two results *)

(** C4, as amended. When attribute 196 is present on the resolved disk and
    the run gets past the rate check of attribute 188, the run carries two
    results for it: the regression result on its raw value against the
    recorded baseline (with the metric of the raw value), and a separate
    lower-bound result of its normalized value against its own threshold.
    The first is a function of the raw value and the baseline only, the
    second of the normalized value and the threshold only; a raw value above
    the recorded baseline gives a CRITICAL regression result whatever the
    normalized value and the threshold are. *)
Theorem attribute_196_two_results `{Host} (item : string) (section : SmartSection)
    (now : float) (env : Env AtaParams) (disk : ATAAll) (entry : ATATableEntry) :
  resolve section (key (params env)) = Some disk ->
  by_id disk 196 = Some entry ->
  reached now disk env ->
  let r := run (_check_smart_ata item section now) env in
  let raw := raw_value (entry_raw entry) in
  about "Reallocated events" "harddrive_reallocated_events" (emitted r)
  = regression_items raw (id_196 (params env))
      "Reallocated events" "harddrive_reallocated_events"
  /\ about "Normalized value" no_metric (emitted r) = [normalized_result entry]
  /\ (forall B, id_196 (params env) = Some B -> (B < raw)%Z ->
      about "Reallocated events" "harddrive_reallocated_events" (emitted r)
      = [Result CRIT ("Reallocated events: " +:+ str raw +:+ " (during discovery: "
                      +:+ str B +:+ ") (!!)");
         Metric "harddrive_reallocated_events" raw]).
Proof.
  intros Hdisk Hid Hreached r raw.
  assert (about "Reallocated events" "harddrive_reallocated_events" (emitted r)
          = regression_items raw (id_196 (params env))
              "Reallocated events" "harddrive_reallocated_events") as Hreg.
  { apply (about_late item section now env disk 196 entry Hdisk);
      [cbn; tauto | exact Hid | exact Hreached]. }
  split; [exact Hreg | split].
  - exact (about_normalized_run item section now env disk entry Hdisk Hid Hreached).
  - intros B HB Hlt. rewrite Hreg, HB. unfold regression_items, regression_result.
    by rewrite (proj2 (Z.gtb_lt raw B) Hlt).
Qed.

(** C4, a run with both results: raw value 7 above the baseline 6, and the
    normalized value 5 below the threshold 10. *)
Lemma attribute_196_two_results_witness :
  let r := run (_check_smart_ata (H := example_host) "sda"
                  (section_of (DiskATA worn_disk)) (nearest_float 3600))
             (mkEnv worn_baseline (primed (nearest_float 0) 0)) in
  about "Reallocated events" "harddrive_reallocated_events" (emitted r)
  = [Result CRIT "Reallocated events: 7 (during discovery: 6) (!!)";
     Metric "harddrive_reallocated_events" 7]
  /\ about "Normalized value" no_metric (emitted r)
     = [Result CRIT "Normalized value: 5.00 (warn/crit below 10.00/10.00)"].
Proof.
  pose proof (attribute_196_two_results (H := example_host) "sda"
                (section_of (DiskATA worn_disk)) (nearest_float 3600)
                (mkEnv worn_baseline (primed (nearest_float 0) 0)) worn_disk
                (attr 196 "Reallocated_Event_Count" 5 10 7)
                eq_refl eq_refl ltac:(vm_compute; reflexivity)) as [_ [Hnorm Hcrit]].
  split.
  - exact (Hcrit 6 eq_refl ltac:(vm_compute; reflexivity)).
  - exact Hnorm.
Defined.

(** C4 fails as stated: attribute 196 is present on the resolved disk with a
    raw value 7 above its recorded baseline 6, but on a run that finds no
    earlier sample for attribute 188 the rate check raises before the check
    comes to 196: the run carries neither of the two results. *)
Lemma attribute_196_counterexample :
  let r := run (_check_smart_ata (H := example_host) "sda"
                  (section_of (DiskATA worn_disk)) (nearest_float 3600))
             (mkEnv worn_baseline ∅) in
  resolve (section_of (DiskATA worn_disk)) (key worn_baseline) = Some worn_disk
  /\ by_id worn_disk 196 = Some (attr 196 "Reallocated_Event_Count" 5 10 7)
  /\ id_196 worn_baseline = Some 6
  /\ about "Reallocated events" "harddrive_reallocated_events" (emitted r) = []
  /\ about "Normalized value" no_metric (emitted r) = []
  /\ outcome r = inl (GetRateError "Initialized: 'cmd_timeout'").
Proof. vm_compute. tauto. Qed.

(** ** Attribute 199: one of two labels *)

(** C5, as amended. No run carries items under both label/metric pairs of
    attribute 199. When the attribute is present on the resolved disk and
    the run gets past the rate check of attribute 188, the run carries its
    items under exactly one pair, chosen by equality of the attribute's name
    with "UDMA_CRC_Error_Count": label "UDMA CRC errors" and metric
    "harddrive_udma_crc_errors" on equality, label "CRC errors" and metric
    "harddrive_crc_errors" for any other name. *)
Theorem crc_label_exclusive `{Host} (item : string) (section : SmartSection)
    (now : float) (env : Env AtaParams) :
  let r := run (_check_smart_ata item section now) env in
  let udma := about "UDMA CRC errors" "harddrive_udma_crc_errors" (emitted r) in
  let generic := about "CRC errors" "harddrive_crc_errors" (emitted r) in
  (udma = [] \/ generic = [])
  /\ (forall disk entry,
      resolve section (key (params env)) = Some disk ->
      by_id disk 199 = Some entry ->
      reached now disk env ->
      let raw := raw_value (entry_raw entry) in
      let baseline := id_199 (params env) in
      (entry_name entry = "UDMA_CRC_Error_Count" ->
       udma = regression_items raw baseline "UDMA CRC errors" "harddrive_udma_crc_errors"
       /\ generic = [])
      /\ (entry_name entry <> "UDMA_CRC_Error_Count" ->
          generic = regression_items raw baseline "CRC errors" "harddrive_crc_errors"
          /\ udma = [])).
Proof.
  intros r udma generic. split.
  - destruct (resolve section (key (params env))) as [disk|] eqn:Hdisk.
    + unfold udma, generic, r.
      rewrite !(about_crc_run item section now _ _ env disk) by (exact Hdisk || tauto).
      destruct (outcome _); [by left | apply about_block_199_never_both].
    + unfold udma, r. left.
      by rewrite (check_smart_ata_unresolved item section now env Hdisk).
  - intros disk entry Hdisk Hid Hreached raw baseline.
    unfold udma, generic, r.
    rewrite !(about_crc_run item section now _ _ env disk) by (exact Hdisk || tauto).
    unfold reached in Hreached. rewrite Hreached. split; intros Hname.
    + exact (about_block_199_udma_only disk entry baseline Hid Hname).
    + exact (about_block_199_generic_only disk entry baseline Hid Hname).
Qed.

(** C5, a run with the vendor name: the items come under the UDMA pair and
    nothing under the generic one. *)
Lemma crc_label_exclusive_witness :
  let r := run (_check_smart_ata (H := example_host) "sda"
                  (section_of (DiskATA worn_disk)) (nearest_float 3600))
             (mkEnv worn_baseline (primed (nearest_float 0) 0)) in
  about "UDMA CRC errors" "harddrive_udma_crc_errors" (emitted r)
  = [Result OK "UDMA CRC errors: 2"; Metric "harddrive_udma_crc_errors" 2]
  /\ about "CRC errors" "harddrive_crc_errors" (emitted r) = [].
Proof.
  exact (proj1 (proj2 (crc_label_exclusive (H := example_host) "sda"
                         (section_of (DiskATA worn_disk)) (nearest_float 3600)
                         (mkEnv worn_baseline (primed (nearest_float 0) 0)))
                  worn_disk (attr 199 "UDMA_CRC_Error_Count" 200 0 2)
                  eq_refl eq_refl ltac:(vm_compute; reflexivity)) eq_refl).
Defined.

(** C5 fails as stated: attribute 199 is present on the resolved disk, but
    on a run that finds no earlier sample for attribute 188 the rate check
    raises before the check comes to 199: the run carries items under
    neither of the two pairs. *)
Lemma crc_label_counterexample :
  let r := run (_check_smart_ata (H := example_host) "sda"
                  (section_of (DiskATA worn_disk)) (nearest_float 3600))
             (mkEnv worn_baseline ∅) in
  resolve (section_of (DiskATA worn_disk)) (key worn_baseline) = Some worn_disk
  /\ by_id worn_disk 199 = Some (attr 199 "UDMA_CRC_Error_Count" 200 0 2)
  /\ about "UDMA CRC errors" "harddrive_udma_crc_errors" (emitted r) = []
  /\ about "CRC errors" "harddrive_crc_errors" (emitted r) = []
  /\ outcome r = inl (GetRateError "Initialized: 'cmd_timeout'").
Proof. vm_compute. tauto. Qed.

(** ** Silent skips *)

(** C6. When the section has no disk under the discovered key, or has one
    that is not an ATA record, the temperature check and the attribute check
    each yield nothing, return normally and leave parameters and store as
    they were. The temperature check does the same when the disk resolves
    but reports no temperature. *)
Theorem checks_skip_silently `{Host} `{TemperatureLib} (item : string)
    (section : SmartSection) (now : float)
    (env : Env AtaParams) (tenv : Env TempAndDiscoveredParams) :
  ((forall disk, devices_get (devices section) (key (params env)) <> Some (DiskATA disk)) ->
   run (_check_smart_ata item section now) env = mkRun [] (inr tt) env)
  /\ ((forall disk,
         devices_get (devices section) (temp_key (params tenv)) <> Some (DiskATA disk)) ->
      run (check_smart_ata_temp item section) tenv = mkRun [] (inr tt) tenv)
  /\ (forall disk,
        devices_get (devices section) (temp_key (params tenv)) = Some (DiskATA disk) ->
        temperature disk = None ->
        run (check_smart_ata_temp item section) tenv = mkRun [] (inr tt) tenv).
Proof.
  split; [|split].
  - intros Hnone. apply check_smart_ata_unresolved. unfold resolve.
    destruct (devices_get _ _) as [[d|d|d]|] eqn:Hget; try reflexivity.
    by destruct (Hnone d).
  - intros Hnone. unfold check_smart_ata_temp. rewrite run_params_bind.
    destruct (devices_get _ _) as [[d|d|d]|] eqn:Hget; try reflexivity.
    by destruct (Hnone d).
  - intros disk Hget Htemp. unfold check_smart_ata_temp.
    rewrite run_params_bind, Hget, Htemp. reflexivity.
Qed.

(** C6 on examples: a key the section does not have, for both checks, and
    an ATA disk without a temperature reading. *)
Lemma checks_skip_silently_witness :
  let section := section_of (ata_disk (Some worn_table) None) in
  let env := mkEnv (mkAtaParams ("other", "disk") None None None None None None None None)
               (∅ : gmap string object) in
  let absent := mkEnv ("other", "disk") (∅ : gmap string object) in
  let present := mkEnv sda (∅ : gmap string object) in
  run (_check_smart_ata (H := example_host) "sda" section (nearest_float 3600)) env
  = mkRun [] (inr tt) env
  /\ run (check_smart_ata_temp (H := example_temperature) "sda" section) absent
     = mkRun [] (inr tt) absent
  /\ run (check_smart_ata_temp (H := example_temperature) "sda" section) present
     = mkRun [] (inr tt) present.
Proof.
  intros section env absent present.
  pose proof (checks_skip_silently (H := example_host) (H0 := example_temperature)
                "sda" section (nearest_float 3600) env absent) as (Hata & Htemp & _).
  pose proof (checks_skip_silently (H := example_host) (H0 := example_temperature)
                "sda" section (nearest_float 3600) env present) as (_ & _ & Hreading).
  split; [|split].
  - apply Hata. intros disk. vm_compute. discriminate.
  - apply Htemp. intros disk. vm_compute. discriminate.
  - apply (Hreading (mkATAAll (mkATADevice "/dev/sda") "WDC WD40" "S123" (Some worn_table) None));
      reflexivity.
Defined.

(** ** Discovery *)

(** C7. Discovery of the attribute service proposes one service for each
    ATA disk of the section that has a SMART attribute table, in the order
    of the section, and none for any other disk. The parameters of a
    proposal hold the key of the disk and, for each of the 8 tracked IDs,
    the raw value of the attribute when the disk has it and null when it
    has not. *)
Theorem discovery_proposals `{Host} (params : DiscoveryParam) (section : SmartSection) :
  Forall2
    (fun (entry : DiskKey * Disk) (service : Service AtaParams) =>
       exists d,
         snd entry = DiskATA d
         /\ item service = get_item (DiskATA d) (fst (item_type params))
         /\ key (parameters service) = fst entry
         /\ Forall (fun n =>
                      recorded (parameters service) n
                      = match by_id d n with
                        | Some attribute => Some (raw_value (entry_raw attribute))
                        | None => None
                        end)
              tracked_ids)
    (List.filter exposes_attributes (devices section))
    (discover_smart_ata params section).
Proof.
  unfold discover_smart_ata. induction (devices section) as [|[k disk] rest IH].
  - constructor.
  - cbn [List.filter flat_map]. unfold exposes_attributes at 1. cbn [snd].
    destruct disk as [d|d|d]; [|exact IH|exact IH].
    destruct (ata_smart_attributes d) as [table|]; [|exact IH].
    cbn [app]. rewrite bool_decide_true by eauto. constructor; [|exact IH].
    exists d. repeat split. unfold tracked_ids, raw_at.
    repeat (constructor; [reflexivity|]). constructor.
Qed.

(** ** Running the check again *)

(** C8. The items and the outcome of a run of the attribute check are a
    function of the item, the section, the timestamp, the parameters and the
    sample kept under ["cmd_timeout"]: two runs that agree on these agree on
    their results, whatever else the store holds. That sample is the only
    state a run passes on to the next. Replaying a run at the same
    timestamp on the store the first run left never ends in a division by
    zero, neither in the check nor in [get_rate] itself, and leaves the
    store as the first run left it. *)
Theorem replay_is_safe `{Host} (item : string) (section : SmartSection) (now : float)
    (p : AtaParams) (store store' : gmap string object) :
  let check := _check_smart_ata item section now in
  (store !! "cmd_timeout" = store' !! "cmd_timeout" ->
   emitted (run check (mkEnv p store)) = emitted (run check (mkEnv p store'))
   /\ outcome (run check (mkEnv p store)) = outcome (run check (mkEnv p store')))
  /\ (let first := run check (mkEnv p store) in
      let again := run check (final first) in
      outcome again <> inl ZeroDivisionError
      /\ final again = final first)
  /\ (forall (k : string) (value : Z),
      let first := run (get_rate k now value) (mkEnv p store) in
      outcome (run (get_rate k now value) (final first)) <> inl ZeroDivisionError).
Proof.
  intros check. unfold check. split; [|split].
  - intros Hslot. destruct (resolve section (key p)) as [disk|] eqn:Hdisk.
    + rewrite (check_smart_ata_resolved item section now (mkEnv p store) disk Hdisk).
      rewrite (check_smart_ata_resolved item section now (mkEnv p store') disk Hdisk).
      destruct (command_timeout_slot disk now (mkEnv p store) (mkEnv p store') Hslot)
        as [<- <-].
      destruct (outcome _); split; reflexivity.
    + rewrite (check_smart_ata_unresolved item section now (mkEnv p store) Hdisk).
      rewrite (check_smart_ata_unresolved item section now (mkEnv p store') Hdisk).
      split; reflexivity.
  - cbv zeta. destruct (resolve section (key p)) as [disk|] eqn:Hdisk.
    + set (t := run (_check_command_timeout disk now) (mkEnv p store)).
      assert (final (run (_check_smart_ata item section now) (mkEnv p store)) = final t)
        as ->.
      { rewrite (check_smart_ata_resolved item section now (mkEnv p store) disk Hdisk).
        fold t. destruct (outcome t); reflexivity. }
      assert (resolve section (key (params (final t))) = Some disk) as Hagain.
      { unfold t. rewrite command_timeout_params. exact Hdisk. }
      split.
      * rewrite (check_smart_ata_resolved item section now (final t) disk Hagain).
        pose proof (command_timeout_replay disk now (mkEnv p store)) as Hreplay.
        cbv zeta in Hreplay. fold t in Hreplay.
        destruct (outcome (run (_check_command_timeout disk now) (final t))) as [e|u];
          cbn [outcome]; [exact Hreplay | discriminate].
      * rewrite (check_smart_ata_final item section now (final t)), Hagain.
        unfold t. rewrite command_timeout_run.
        destruct (by_id disk 188) as [counter|]; [|reflexivity]. cbv zeta.
        destruct (rate_answer _ _ _ _); cbn [final params value_store];
          rewrite insert_insert_eq; reflexivity.
    + rewrite (check_smart_ata_unresolved item section now (mkEnv p store) Hdisk).
      cbn [final].
      rewrite (check_smart_ata_unresolved item section now (mkEnv p store) Hdisk).
      split; [discriminate | reflexivity].
  - intros k value. cbv zeta. rewrite !get_rate_run. cbn [final outcome value_store].
    rewrite lookup_insert_eq. apply rate_answer_replay.
Qed.

(** C8 on an example: the store of a host that keeps other samples too gives
    the results of the store with the sample of attribute 188 alone. *)
Lemma replay_is_safe_witness :
  let check :=
    _check_smart_ata (H := example_host) "sda" (section_of (DiskATA worn_disk))
      (nearest_float 3600) in
  let store := primed (nearest_float 0) 0 in
  let store' := <["temp" := Opaque "(0, 40)"]> (primed (nearest_float 0) 0) in
  emitted (run check (mkEnv worn_baseline store))
  = emitted (run check (mkEnv worn_baseline store'))
  /\ outcome (run check (mkEnv worn_baseline store))
     = outcome (run check (mkEnv worn_baseline store')).
Proof.
  intros check store store'.
  apply (proj1 (replay_is_safe (H := example_host) "sda" (section_of (DiskATA worn_disk))
                  (nearest_float 3600) worn_baseline store store')).
  vm_compute. reflexivity.
Defined.

(** ** The check path leaves the baseline alone *)

(** C9. A run of the attribute check ends with the parameter record it
    started with, however it ends; of the store it changes at most the
    sample kept under ["cmd_timeout"], which it writes when the disk
    resolves and has attribute 188. *)
Theorem check_keeps_baseline `{Host} (item : string) (section : SmartSection)
    (now : float) (env : Env AtaParams) :
  let r := run (_check_smart_ata item section now) env in
  params (final r) = params env
  /\ delete "cmd_timeout" (value_store (final r)) = delete "cmd_timeout" (value_store env)
  /\ value_store (final r)
     = match resolve section (key (params env)) with
       | Some disk =>
           match by_id disk 188 with
           | Some counter =>
               <["cmd_timeout" := Sample now (raw_value (entry_raw counter))]> (value_store env)
           | None => value_store env
           end
       | None => value_store env
       end.
Proof.
  intros r. unfold r. rewrite (check_smart_ata_final item section now env).
  destruct (resolve section (key (params env))) as [disk|]; [|done].
  destruct (by_id disk 188); [|done].
  cbn [params value_store]. repeat split. apply delete_insert_eq.
Qed.

(** ** The secondary check of attribute 196 *)

(** C10. The secondary check of attribute 196 passes the attribute's own
    threshold to [check_levels] as both the warning and the critical lower
    level, and no metric name. What it contributes to a run is one result
    and nothing else: CRITICAL when the normalized value is strictly below
    the threshold, OK when it is equal to or above it, never WARN. In a run
    the items of attribute 196 are the regression result, the metric of the
    raw value and this result, in that order; the item after it is the
    first of attribute 197 (or of 199, or none): no metric accompanies it.
    A run that ends at the rate check of attribute 188 has no item of
    attribute 196. *)
Theorem normalized_value_levels `{Host} (item : string) (section : SmartSection)
    (now : float) (env : Env AtaParams) (disk : ATAAll) (entry : ATATableEntry) :
  resolve section (key (params env)) = Some disk ->
  by_id disk 196 = Some entry ->
  let value := entry_value entry in
  let thresh := entry_thresh entry in
  let raw := raw_value (entry_raw entry) in
  let p := params env in
  let secondary :=
    if (value <? thresh)%Z
    then Result CRIT ("Normalized value: " +:+ render_default value
                      +:+ " (warn/crit below " +:+ render_default thresh
                      +:+ "/" +:+ render_default thresh +:+ ")")
    else Result OK ("Normalized value: " +:+ render_default value) in
  let r := run (_check_smart_ata item section now) env in
  let t := run (_check_command_timeout disk now) env in
  emitted r
  = match outcome t with
    | inl _ => before_timeout p disk ++ emitted t
    | inr _ =>
        before_timeout p disk ++ emitted t
        ++ [regression_result raw (id_196 p) "Reallocated events";
            Metric "harddrive_reallocated_events" raw;
            secondary]
        ++ block_regression disk 197 (id_197 p) "Pending sectors" "harddrive_pending_sectors"
        ++ block_199 disk (id_199 p)
    end
  /\ about "Normalized value" no_metric (emitted r)
     = match outcome t with
       | inl _ => []
       | inr _ => [secondary]
       end
  /\ ((value < thresh)%Z -> exists summary, secondary = Result CRIT summary)
  /\ ((thresh <= value)%Z -> exists summary, secondary = Result OK summary)
  /\ (forall summary, secondary <> Result WARN summary)
  /\ run (check_levels value (Some (thresh, thresh)) None None "Normalized value") env
     = mkRun [secondary] (inr tt) env.
Proof.
  intros Hdisk Hid value thresh raw p secondary r t.
  assert (normalized_result entry = secondary) as Hsecondary by reflexivity.
  split; [|split; [|split; [|split; [|split]]]].
  - unfold r. rewrite (check_smart_ata_resolved item section now env disk Hdisk).
    fold t. fold p. destruct (outcome t); cbn [emitted]; [reflexivity|].
    unfold after_timeout, block_196. rewrite Hid, Hsecondary.
    unfold regression_items. fold raw. rewrite <- !app_assoc. reflexivity.
  - unfold r, t. rewrite (about_run item section now _ _ env disk Hdisk).
    rewrite <- Hsecondary. destruct (outcome _).
    + about_blocks idtac. reflexivity.
    + about_blocks ltac:(rewrite (about_block_196_normalized _ _ _ Hid)). reflexivity.
  - intros Hlt. unfold secondary. rewrite (proj2 (Z.ltb_lt value thresh) Hlt). eauto.
  - intros Hge. unfold secondary. rewrite (proj2 (Z.ltb_ge value thresh) Hge). eauto.
  - intros summary. unfold secondary. destruct (value <? thresh)%Z; discriminate.
  - unfold check_levels, secondary. rewrite run_bind.
    destruct (value <? thresh)%Z; reflexivity.
Qed.

(** C10 at the boundary: a normalized value equal to the threshold is OK,
    and the run of a disk with attribute 196 alone has its three items and
    no other. *)
Lemma normalized_value_levels_witness :
  let disk :=
    mkATAAll (mkATADevice "/dev/sda") "WDC WD40" "S123"
      (Some [attr 196 "Reallocated_Event_Count" 10 10 0]) None in
  emitted (run (_check_smart_ata (H := example_host) "sda" (section_of (DiskATA disk))
                  (nearest_float 3600))
             (mkEnv no_baseline ∅))
  = [Result OK "Reallocated events: 0";
     Metric "harddrive_reallocated_events" 0;
     Result OK "Normalized value: 10.00"].
Proof.
  exact (proj1 (normalized_value_levels (H := example_host) "sda"
                  (section_of (DiskATA
                     (mkATAAll (mkATADevice "/dev/sda") "WDC WD40" "S123"
                        (Some [attr 196 "Reallocated_Event_Count" 10 10 0]) None)))
                  (nearest_float 3600) (mkEnv no_baseline ∅)
                  (mkATAAll (mkATADevice "/dev/sda") "WDC WD40" "S123"
                     (Some [attr 196 "Reallocated_Event_Count" 10 10 0]) None)
                  (attr 196 "Reallocated_Event_Count" 10 10 0)
                  eq_refl eq_refl)).
Defined.

(** * Further properties of the plugin *)

(** ** Looking a discovered key up again *)

Lemma devices_get_In (items : list (DiskKey * Disk)) (k : DiskKey) (disk : Disk) :
  NoDup (map fst items) -> In (k, disk) items -> devices_get items k = Some disk.
Proof.
  induction items as [|[k' disk'] rest IH]; intros Hnodup Hin; [destruct Hin|].
  cbn [map fst] in Hnodup. apply NoDup_cons in Hnodup as [Hfresh Hrest].
  cbn [devices_get]. destruct Hin as [Hhead|Htail].
  - injection Hhead as -> ->. by rewrite decide_True.
  - rewrite decide_False; [by apply IH|].
    intros ->. apply Hfresh. apply list_elem_of_In.
    change k with (fst (k, disk)). by apply in_map.
Qed.

Lemma resolve_In (section : SmartSection) (k : DiskKey) (d : ATAAll) :
  keys_once section -> In (k, DiskATA d) (devices section) -> resolve section k = Some d.
Proof.
  intros Honce Hin. unfold resolve. by rewrite (devices_get_In _ _ _ Honce Hin).
Qed.

(** ** Temperature services *)

(** X1. Discovery of the temperature service proposes one service for each ATA
    disk of the section that reports a temperature, in the order of the
    section, and none for any other disk; the parameters of a proposal are the
    key of the disk. *)
Theorem temp_discovery_proposals `{Host} (params : DiscoveryParam) (section : SmartSection) :
  Forall2
    (fun (entry : DiskKey * Disk) (service : Service DiskKey) =>
       exists d,
         snd entry = DiskATA d
         /\ is_Some (temperature d)
         /\ item service = get_item (DiskATA d) (fst (item_type params))
         /\ parameters service = fst entry)
    (List.filter reports_temperature (devices section))
    (discovery_smart_ata_temp params section).
Proof.
  unfold discovery_smart_ata_temp. induction (devices section) as [|[k disk] rest IH].
  - constructor.
  - cbn [List.filter flat_map]. unfold reports_temperature at 1. cbn [snd].
    destruct disk as [d|d|d]; [|exact IH|exact IH].
    destruct (temperature d) as [t|] eqn:Htemp; [|exact IH].
    cbn [app]. rewrite bool_decide_true by eauto. constructor; [|exact IH].
    exists d. rewrite Htemp. repeat split. eauto.
Qed.

Lemma temp_discovery_In `{Host} (params : DiscoveryParam) (section : SmartSection)
    (service : Service DiskKey) :
  In service (discovery_smart_ata_temp params section) ->
  exists d t,
    In (parameters service, DiskATA d) (devices section) /\ temperature d = Some t.
Proof.
  unfold discovery_smart_ata_temp. intros Hin.
  apply in_flat_map in Hin as ([k disk] & Hentry & Hin).
  destruct disk as [d|d|d]; [|destruct Hin|destruct Hin].
  destruct (temperature d) as [t|] eqn:Htemp; [|destruct Hin].
  destruct Hin as [<-|[]]. exists d, t. by split.
Qed.

(** X2. A temperature service discovered on a section is not skipped when it
    is checked against that section: the check finds the disk under the
    discovered key and hands its current reading to [check_temperature], with
    the parameters it was given and the name ["smart_<item>"]. *)
Theorem temp_discovered_is_checked `{Host} `{TemperatureLib}
    (discovery : DiscoveryParam) (section : SmartSection) (service : Service DiskKey)
    (item : string) (tenv : Env TempAndDiscoveredParams) :
  keys_once section ->
  In service (discovery_smart_ata_temp discovery section) ->
  temp_key (params tenv) = parameters service ->
  exists d t,
    In (parameters service, DiskATA d) (devices section)
    /\ temperature d = Some t
    /\ run (check_smart_ata_temp item section) tenv
       = run (check_temperature (current t) (params tenv) ("smart_" +:+ item)) tenv.
Proof.
  intros Honce Hin Hkey.
  destruct (temp_discovery_In discovery section service Hin) as (d & t & Hentry & Htemp).
  exists d, t. split; [exact Hentry|]. split; [exact Htemp|].
  unfold check_smart_ata_temp. rewrite run_params_bind, Hkey.
  rewrite (devices_get_In _ _ _ Honce Hentry), Htemp.
  rewrite run_params_bind. reflexivity.
Qed.

(** ** What holds of every item of a run *)

Section Items.
Context `{Host}.
Context (Q : CheckItem -> Prop).

(** A property of the items of the blocks is one of the items of a run. *)
Lemma run_Forall (item : string) (section : SmartSection) (now : float)
    (env : Env AtaParams) :
  (forall disk,
     resolve section (key (params env)) = Some disk ->
     Forall Q (before_timeout (params env) disk)
     /\ Forall Q (emitted (run (_check_command_timeout disk now) env))
     /\ Forall Q (after_timeout (params env) disk)) ->
  Forall Q (emitted (run (_check_smart_ata item section now) env)).
Proof.
  intros Hblocks. destruct (resolve section (key (params env))) as [disk|] eqn:Hdisk.
  - destruct (Hblocks disk eq_refl) as (Hbefore & Htimeout & Hafter).
    rewrite (check_smart_ata_resolved item section now env disk Hdisk).
    destruct (outcome _); cbn [emitted]; rewrite ?Forall_app; auto.
  - rewrite (check_smart_ata_unresolved item section now env Hdisk). constructor.
Qed.

Lemma timeout_Forall {P} (disk : ATAAll) (now : float) (env : Env P) :
  (forall raw rate, Q (timeout_result raw rate)) ->
  (forall raw, Q (Metric "harddrive_cmd_timeouts" raw)) ->
  Forall Q (emitted (run (_check_command_timeout disk now) env)).
Proof.
  intros Hresult Hmetric. rewrite command_timeout_run.
  destruct (by_id disk 188); [|constructor]. cbv zeta.
  destruct (rate_answer _ _ _ _); cbn [emitted]; repeat constructor; auto.
Qed.

Lemma block_regression_Forall (disk : ATAAll) (n : Z) (baseline : option Z) (l m : string) :
  (forall entry,
     by_id disk n = Some entry ->
     Q (regression_result (raw_value (entry_raw entry)) baseline l)) ->
  (forall value, Q (Metric m value)) ->
  Forall Q (block_regression disk n baseline l m).
Proof.
  intros Hresult Hmetric. unfold block_regression, regression_items.
  destruct (by_id disk n); repeat constructor; auto.
Qed.

Lemma block_plain_Forall (disk : ATAAll) (n : Z) (render : Z -> string) (l m : string) :
  (forall summary, Q (Result OK summary)) ->
  (forall value, Q (Metric m value)) ->
  Forall Q (block_plain disk n render l m).
Proof.
  intros Hresult Hmetric. unfold block_plain.
  destruct (by_id disk n); repeat constructor; auto.
Qed.

Lemma block_196_Forall (disk : ATAAll) (baseline : option Z) :
  (forall entry,
     by_id disk 196 = Some entry ->
     Q (regression_result (raw_value (entry_raw entry)) baseline "Reallocated events")) ->
  (forall value, Q (Metric "harddrive_reallocated_events" value)) ->
  (forall entry, Q (normalized_result entry)) ->
  Forall Q (block_196 disk baseline).
Proof.
  intros Hresult Hmetric Hnormalized. unfold block_196, regression_items.
  destruct (by_id disk 196); repeat constructor; auto.
Qed.

Lemma block_199_Forall (disk : ATAAll) (baseline : option Z) :
  (forall entry l,
     by_id disk 199 = Some entry ->
     Q (regression_result (raw_value (entry_raw entry)) baseline l)) ->
  (forall m value, Q (Metric m value)) ->
  Forall Q (block_199 disk baseline).
Proof.
  intros Hresult Hmetric. unfold block_199, regression_items.
  destruct (by_id disk 199); repeat constructor; auto.
Qed.

End Items.

(** ** The states a run reports *)

Lemma regression_result_ok_or_crit (value : Z) (baseline : option Z) (l : string) :
  ok_or_crit (regression_result value baseline l).
Proof.
  unfold regression_result. destruct baseline as [b|]; [destruct (value >? b)%Z|]; exact I.
Qed.

(** X3. The attribute check reports OK or CRIT only: no run yields a result in
    state WARN or UNKNOWN, whatever the section, the parameters and the store
    are. *)
Theorem check_reports_ok_or_crit `{Host} (item : string) (section : SmartSection)
    (now : float) (env : Env AtaParams) :
  Forall ok_or_crit (emitted (run (_check_smart_ata item section now) env)).
Proof.
  apply run_Forall. intros disk _. unfold before_timeout, after_timeout.
  rewrite !Forall_app. repeat split.
  - apply block_regression_Forall; intros; [apply regression_result_ok_or_crit | exact I].
  - apply block_plain_Forall; intros; exact I.
  - apply block_regression_Forall; intros; [apply regression_result_ok_or_crit | exact I].
  - apply block_plain_Forall; intros; exact I.
  - apply block_regression_Forall; intros; [apply regression_result_ok_or_crit | exact I].
  - apply block_regression_Forall; intros; [apply regression_result_ok_or_crit | exact I].
  - apply timeout_Forall; intros; [|exact I].
    unfold timeout_result. destruct (PrimFloat.leb _ _); exact I.
  - apply block_196_Forall; intros; [apply regression_result_ok_or_crit | exact I |].
    unfold normalized_result. destruct (_ <? _)%Z; exact I.
  - apply block_regression_Forall; intros; [apply regression_result_ok_or_crit | exact I].
  - apply block_199_Forall; intros; [apply regression_result_ok_or_crit | exact I].
Qed.

(** ** Checking right after discovery *)

Lemma discover_In `{Host} (discovery : DiscoveryParam) (section : SmartSection)
    (service : Service AtaParams) :
  In service (discover_smart_ata discovery section) ->
  exists k d,
    In (k, DiskATA d) (devices section)
    /\ is_Some (ata_smart_attributes d)
    /\ parameters service
       = mkAtaParams k (raw_at d 5) (raw_at d 10) (raw_at d 184) (raw_at d 187)
           (raw_at d 188) (raw_at d 196) (raw_at d 197) (raw_at d 199).
Proof.
  unfold discover_smart_ata. intros Hin.
  apply in_flat_map in Hin as ([k disk] & Hentry & Hin).
  destruct disk as [d|d|d]; [|destruct Hin|destruct Hin].
  destruct (ata_smart_attributes d) as [table|] eqn:Htable; [|destruct Hin].
  destruct Hin as [<-|[]]. exists k, d. rewrite Htable. repeat split; eauto.
Qed.

Lemma regression_result_fresh (disk : ATAAll) (n : Z) (entry : ATATableEntry) (l : string) :
  by_id disk n = Some entry ->
  regression_result (raw_value (entry_raw entry)) (raw_at disk n) l
  = Result OK (l +:+ ": " +:+ str (raw_value (entry_raw entry))).
Proof.
  intros Hid. unfold regression_result, raw_at. rewrite Hid.
  by rewrite Z.gtb_ltb, Z.ltb_irrefl.
Qed.

Lemma timeout_result_no_regression_alert (raw : Z) (rate : float) :
  no_regression_alert (timeout_result raw rate).
Proof.
  unfold timeout_result. destruct (PrimFloat.leb _ _); [|exact I].
  left. apply prefix_append.
Qed.

Lemma normalized_result_no_regression_alert `{Host} (entry : ATATableEntry) :
  no_regression_alert (normalized_result entry).
Proof.
  unfold normalized_result. destruct (_ <? _)%Z; [|exact I].
  right. cbv zeta. rewrite append_assoc3. apply prefix_append.
Qed.

(** X4. A service discovered on a section and checked against that section,
    whatever the store holds and whenever it is checked, resolves its disk and
    reports no regression: every CRIT result of the run is one of the rate
    check of attribute 188 or of the normalized value of attribute 196, none
    is one of the regression rule. *)
Theorem fresh_baseline_no_regression `{Host} `{Clock} (discovery : DiscoveryParam)
    (section : SmartSection) (service : Service AtaParams) (item : string)
    (store : gmap string object) :
  keys_once section ->
  In service (discover_smart_ata discovery section) ->
  (exists d,
     In (key (parameters service), DiskATA d) (devices section)
     /\ resolve section (key (parameters service)) = Some d)
  /\ Forall no_regression_alert
       (emitted (run (check_smart_ata item section) (mkEnv (parameters service) store))).
Proof.
  intros Honce Hin.
  destruct (discover_In discovery section service Hin) as (k & d & Hentry & _ & Hparams).
  assert (resolve section (key (parameters service)) = Some d) as Hdisk.
  { rewrite Hparams. exact (resolve_In section k d Honce Hentry). }
  split.
  { exists d. split; [|exact Hdisk]. rewrite Hparams. exact Hentry. }
  unfold check_smart_ata. apply run_Forall. cbn [params]. intros disk Hdisk'.
  assert (disk = d) as -> by congruence.
  rewrite Hparams. unfold before_timeout, after_timeout.
  cbn [id_5 id_10 id_184 id_187 id_196 id_197 id_199].
  rewrite !Forall_app. repeat split.
  - apply block_regression_Forall; intros; [|exact I].
    by erewrite regression_result_fresh.
  - apply block_plain_Forall; intros; exact I.
  - apply block_regression_Forall; intros; [|exact I].
    by erewrite regression_result_fresh.
  - apply block_plain_Forall; intros; exact I.
  - apply block_regression_Forall; intros; [|exact I].
    by erewrite regression_result_fresh.
  - apply block_regression_Forall; intros; [|exact I].
    by erewrite regression_result_fresh.
  - apply timeout_Forall; intros; [apply timeout_result_no_regression_alert | exact I].
  - apply block_196_Forall; intros;
      [by erewrite regression_result_fresh | exact I
      | apply normalized_result_no_regression_alert].
  - apply block_regression_Forall; intros; [|exact I].
    by erewrite regression_result_fresh.
  - apply block_199_Forall; intros; [|exact I].
    by erewrite regression_result_fresh.
Qed.

(** ** The metrics of a run *)

Lemma metric_names_app (xs ys : list CheckItem) :
  metric_names (xs ++ ys) = metric_names xs ++ metric_names ys.
Proof. apply flat_map_app. Qed.

Lemma metric_names_items (value : Z) (baseline : option Z) (l m : string) :
  metric_names (regression_items value baseline l m) = [m].
Proof.
  unfold regression_items, regression_result.
  destruct baseline as [b|]; [destruct (value >? b)%Z|]; reflexivity.
Qed.

Lemma metric_names_regression (disk : ATAAll) (n : Z) (baseline : option Z) (l m : string) :
  metric_names (block_regression disk n baseline l m) `sublist_of` [m].
Proof.
  unfold block_regression.
  destruct (by_id disk n); [by rewrite metric_names_items | apply sublist_nil_l].
Qed.

Lemma metric_names_plain (disk : ATAAll) (n : Z) (render : Z -> string) (l m : string) :
  metric_names (block_plain disk n render l m) `sublist_of` [m].
Proof.
  unfold block_plain. destruct (by_id disk n); [reflexivity | apply sublist_nil_l].
Qed.

Lemma metric_names_timeout {P} (disk : ATAAll) (now : float) (env : Env P) :
  metric_names (emitted (run (_check_command_timeout disk now) env))
  `sublist_of` ["harddrive_cmd_timeouts"].
Proof.
  rewrite command_timeout_run. destruct (by_id disk 188); [|apply sublist_nil_l]. cbv zeta.
  destruct (rate_answer _ _ _ _) as [e|rate]; [apply sublist_nil_l|].
  unfold timeout_result. cbn [emitted]. by destruct (PrimFloat.leb _ _).
Qed.

Lemma metric_names_196 `{Host} (disk : ATAAll) (baseline : option Z) :
  metric_names (block_196 disk baseline) `sublist_of` ["harddrive_reallocated_events"].
Proof.
  unfold block_196. destruct (by_id disk 196) as [entry|]; [|apply sublist_nil_l].
  rewrite metric_names_app, metric_names_items. unfold normalized_result.
  by destruct (_ <? _)%Z.
Qed.

(** The metric of attribute 199 has one of two names; a run has at most the
    one its block chooses. *)
Lemma metric_names_199 (disk : ATAAll) (baseline : option Z) :
  exists m,
    (m = "harddrive_udma_crc_errors" \/ m = "harddrive_crc_errors")
    /\ metric_names (block_199 disk baseline) `sublist_of` [m].
Proof.
  unfold block_199, regression_metric. destruct (by_id disk 199) as [entry|].
  - change (199 =? 5)%Z with false. change (199 =? 10)%Z with false.
    change (199 =? 184)%Z with false. change (199 =? 187)%Z with false.
    change (199 =? 196)%Z with false. change (199 =? 197)%Z with false. cbv iota.
    destruct (String.eqb (entry_name entry) udma_name); eexists;
      (split; [|by rewrite metric_names_items]); eauto.
  - exists "harddrive_crc_errors". split; [by right | apply sublist_nil_l].
Qed.

(** X5. No run of the attribute check yields two metrics of the same name,
    whatever the attribute table of the disk holds. *)
Theorem check_metrics_distinct `{Host} (item : string) (section : SmartSection)
    (now : float) (env : Env AtaParams) :
  NoDup (metric_names (emitted (run (_check_smart_ata item section now) env))).
Proof.
  destruct (resolve section (key (params env))) as [disk|] eqn:Hdisk.
  - destruct (metric_names_199 disk (id_199 (params env))) as (m & Hm & H199).
    rewrite (check_smart_ata_resolved item section now env disk Hdisk).
    set (names :=
           ["harddrive_reallocated_sectors"] ++ ["uptime"] ++ ["harddrive_spin_retries"]
           ++ ["harddrive_power_cycles"] ++ ["harddrive_end_to_end_errors"]
           ++ ["harddrive_uncorrectable_errors"] ++ ["harddrive_cmd_timeouts"]
           ++ ["harddrive_reallocated_events"] ++ ["harddrive_pending_sectors"] ++ [m]).
    assert (NoDup names) as Hnames.
    { unfold names. destruct Hm as [-> | ->]; apply (bool_decide_unpack _); vm_compute;
        exact I. }
    assert (metric_names
              (before_timeout (params env) disk
               ++ emitted (run (_check_command_timeout disk now) env)
               ++ after_timeout (params env) disk)
            `sublist_of` names) as Hall.
    { unfold names, before_timeout, after_timeout.
      rewrite <- !app_assoc, !metric_names_app.
      repeat first
        [ exact H199
        | apply sublist_app;
            [ first [ apply metric_names_regression | apply metric_names_plain
                    | apply metric_names_timeout | apply metric_names_196 ] | ] ]. }
    eapply sublist_NoDup; [exact Hnames|].
    destruct (outcome _); cbn [emitted]; [|exact Hall].
    etrans; [|exact Hall]. rewrite !metric_names_app.
    apply sublist_app; [reflexivity|].
    by apply sublist_inserts_r.
  - rewrite (check_smart_ata_unresolved item section now env Hdisk). constructor.
Qed.

(** ** The plain attributes 9 and 12 *)

Lemma about_block_plain_own (disk : ATAAll) (n : Z) (entry : ATATableEntry)
    (render : Z -> string) (l m : string) :
  by_id disk n = Some entry ->
  about l m (block_plain disk n render l m)
  = [Result OK (l +:+ ": " +:+ render (raw_value (entry_raw entry)));
     Metric m (raw_value (entry_raw entry))].
Proof.
  intros Hid. unfold block_plain, about. rewrite Hid. cbn [List.filter concerns].
  rewrite prefix_label, String.eqb_refl. reflexivity.
Qed.

(** X6. The power-on hours (attribute 9) and the power cycles (attribute 12)
    of the resolved disk are reported in every run, whatever the baseline and
    the store are and however the rate check of attribute 188 ends: each gives
    one OK result, the hours rendered as a time span and the cycles as a plain
    number, and one metric with the raw value, ["uptime"] and
    ["harddrive_power_cycles"]. *)
Theorem plain_attributes_always_ok `{Host} (item : string) (section : SmartSection)
    (now : float) (env : Env AtaParams) (disk : ATAAll) :
  resolve section (key (params env)) = Some disk ->
  let r := run (_check_smart_ata item section now) env in
  (forall hours,
     by_id disk 9 = Some hours ->
     about "Powered on" "uptime" (emitted r)
     = [Result OK ("Powered on: " +:+ render_timespan (raw_value (entry_raw hours)));
        Metric "uptime" (raw_value (entry_raw hours))])
  /\ (forall cycles,
        by_id disk 12 = Some cycles ->
        about "Power cycles" "harddrive_power_cycles" (emitted r)
        = [Result OK ("Power cycles: " +:+ str (raw_value (entry_raw cycles)));
           Metric "harddrive_power_cycles" (raw_value (entry_raw cycles))]).
Proof.
  intros Hdisk r. unfold r. split.
  - intros hours Hid. rewrite (about_run item section now _ _ env disk Hdisk).
    destruct (outcome _);
      about_blocks ltac:(rewrite (about_block_plain_own _ _ _ _ _ _ Hid)); reflexivity.
  - intros cycles Hid. rewrite (about_run item section now _ _ env disk Hdisk).
    destruct (outcome _);
      about_blocks ltac:(rewrite (about_block_plain_own _ _ _ _ _ _ Hid)); reflexivity.
Qed.

(** ** Disks without the attributes the check looks at *)

(** X7. On a disk without attribute 188 the attribute check never raises and
    never writes the store: it returns with the items of the other attributes
    and leaves parameters and store as they were. *)
Theorem check_without_188_returns `{Host} (item : string) (section : SmartSection)
    (now : float) (env : Env AtaParams) (disk : ATAAll) :
  resolve section (key (params env)) = Some disk ->
  by_id disk 188 = None ->
  run (_check_smart_ata item section now) env
  = mkRun (before_timeout (params env) disk ++ after_timeout (params env) disk)
      (inr tt) env.
Proof.
  intros Hdisk Habsent.
  rewrite (check_smart_ata_resolved item section now env disk Hdisk).
  rewrite (command_timeout_absent disk now env Habsent). reflexivity.
Qed.

(** X8. A disk that resolves but has lost its attribute table, or has an empty
    one, gives a run without items: the check returns at once, and leaves
    parameters and store as they were. *)
Theorem check_without_attributes_is_empty `{Host} (item : string)
    (section : SmartSection) (now : float) (env : Env AtaParams) (disk : ATAAll) :
  resolve section (key (params env)) = Some disk ->
  ata_smart_attributes disk = None \/ ata_smart_attributes disk = Some [] ->
  run (_check_smart_ata item section now) env = mkRun [] (inr tt) env.
Proof.
  intros Hdisk Hempty.
  assert (forall n, by_id disk n = None) as Hnone.
  { intros n. unfold by_id. by destruct Hempty as [-> | ->]. }
  rewrite (check_smart_ata_resolved item section now env disk Hdisk).
  rewrite (command_timeout_absent disk now env (Hnone 188)).
  unfold before_timeout, after_timeout, block_regression, block_plain, block_196, block_199.
  rewrite !Hnone. reflexivity.
Qed.

(** ** The discovery parameters *)

(** X9. The item type of the discovery parameters names the services and
    nothing else: both discoveries propose the same parameters, in the same
    order, whatever item type is chosen. *)
Theorem discovery_parameters_independent `{Host} (chosen other : DiscoveryParam)
    (section : SmartSection) :
  map parameters (discover_smart_ata chosen section)
  = map parameters (discover_smart_ata other section)
  /\ map parameters (discovery_smart_ata_temp chosen section)
     = map parameters (discovery_smart_ata_temp other section).
Proof.
  unfold discover_smart_ata, discovery_smart_ata_temp.
  split; induction (devices section) as [|[k disk] rest IH]; try reflexivity;
    cbn [flat_map]; rewrite !map_app, IH; f_equal;
    destruct disk as [d|d|d]; try reflexivity.
  - by destruct (ata_smart_attributes d).
  - by destruct (temperature d).
Qed.

(** ** The rate check from one run to the next *)

(** A rate of zero counts is below the ceiling, whatever the time
    difference is it was divided by. *)
Lemma zero_rate_below_ceiling (d : float) :
  PrimFloat.leb rate_ceiling (PrimFloat.div (nearest_float 0) d) = false.
Proof.
  rewrite FloatAxioms.leb_spec, FloatAxioms.div_spec.
  change (Prim2SF (nearest_float 0)) with (S754_zero false).
  destruct (Prim2SF d) as [s|s| |s m e]; try destruct s; vm_compute; reflexivity.
Qed.

(** X10. A counter of command timeouts that has not moved since the sample in
    the store never alerts: the rate check yields no CRIT result, whatever the
    two timestamps are. *)
Theorem unchanged_counter_never_alerts {P} (disk : ATAAll) (now : float) (env : Env P)
    (counter : ATATableEntry) (last_time : float) :
  by_id disk 188 = Some counter ->
  value_store env !! "cmd_timeout" = Some (Sample last_time (raw_value (entry_raw counter))) ->
  Forall no_alert (emitted (run (_check_command_timeout disk now) env)).
Proof.
  intros Hid Hslot. rewrite command_timeout_run, Hid. cbv zeta. rewrite Hslot.
  unfold rate_answer. rewrite Z.sub_diag.
  destruct (PrimFloat.leb now last_time); [constructor|].
  change (PrimFloat.is_infinity (nearest_float 0)) with false. cbv iota.
  destruct (PrimFloat.is_zero _); [constructor|].
  cbn [emitted]. unfold timeout_result. rewrite zero_rate_below_ceiling.
  repeat constructor.
Qed.

(** X10, on an example. The unchanged counter of the example disk, a day after
    its sample. *)
Lemma unchanged_counter_never_alerts_witness :
  Forall no_alert
    (emitted (run (_check_command_timeout worn_disk (nearest_float 86400))
                (mkEnv tt (primed (nearest_float 0) 101)))).
Proof.
  apply (unchanged_counter_never_alerts worn_disk (nearest_float 86400)
           (mkEnv tt (primed (nearest_float 0) 101))
           (attr 188 "Command_Timeout" 100 0 101) (nearest_float 0)).
  - reflexivity.
  - vm_compute. reflexivity.
Defined.

(** X11. The rate check keeps one sample and no more history: once it has run
    on a disk with attribute 188, whether it yielded or raised, the store
    holds the sample of that run, and the items and the outcome of the next
    rate check are the same whatever the store held before the first one. *)
Theorem rate_check_keeps_one_sample {P} (disk next_disk : ATAAll) (now next_now : float)
    (env env' : Env P) (counter : ATATableEntry) :
  by_id disk 188 = Some counter ->
  let first := run (_check_command_timeout disk now) env in
  let first' := run (_check_command_timeout disk now) env' in
  let second := run (_check_command_timeout next_disk next_now) (final first) in
  let second' := run (_check_command_timeout next_disk next_now) (final first') in
  value_store (final first) !! "cmd_timeout"
  = Some (Sample now (raw_value (entry_raw counter)))
  /\ emitted second = emitted second'
  /\ outcome second = outcome second'.
Proof.
  intros Hid first first' second second'.
  assert (forall e : Env P,
            value_store (final (run (_check_command_timeout disk now) e)) !! "cmd_timeout"
            = Some (Sample now (raw_value (entry_raw counter)))) as Hslot.
  { intros e. rewrite command_timeout_run, Hid. cbv zeta.
    destruct (rate_answer _ _ _ _); cbn [final value_store]; apply lookup_insert_eq. }
  split; [apply Hslot|].
  apply command_timeout_slot. unfold first, first'. by rewrite !Hslot.
Qed.

(** X11, on an example. Two histories of the example disk: a store never used
    and one primed long ago give the same second check. *)
Lemma rate_check_keeps_one_sample_witness :
  let check now := _check_command_timeout (P := unit) worn_disk (nearest_float now) in
  let second store := run (check 7200) (final (run (check 3600) (mkEnv tt store))) in
  emitted (second ∅) = emitted (second (primed (nearest_float 0) 0))
  /\ outcome (second ∅) = outcome (second (primed (nearest_float 0) 0)).
Proof.
  intros check second.
  exact (proj2 (rate_check_keeps_one_sample worn_disk worn_disk (nearest_float 3600)
                  (nearest_float 7200) (mkEnv tt ∅) (mkEnv tt (primed (nearest_float 0) 0))
                  (attr 188 "Command_Timeout" 100 0 101) eq_refl)).
Defined.

(** ** The properties on the example inputs *)

Lemma keys_once_example (disk : Disk) : keys_once (section_of disk).
Proof. unfold keys_once. cbn. apply NoDup_singleton. Qed.

(** X2, on an example. The temperature service of the example disk, discovered
    and checked. *)
Lemma temp_discovered_is_checked_witness :
  exists d t,
    In (sda, DiskATA d) (devices (section_of (DiskATA warm_disk)))
    /\ temperature d = Some t
    /\ run (check_smart_ata_temp (H := example_temperature) "sda"
              (section_of (DiskATA warm_disk))) (mkEnv sda ∅)
       = run (check_temperature (TemperatureLib := example_temperature) (current t) sda
                "smart_sda") (mkEnv sda ∅).
Proof.
  apply (temp_discovered_is_checked (H := example_host) (H0 := example_temperature)
           (mkDiscoveryParam (device_name, tt)) (section_of (DiskATA warm_disk))
           (mkService "/dev/sda" sda) "sda" (mkEnv sda ∅)).
  - apply keys_once_example.
  - left. reflexivity.
  - reflexivity.
Defined.

(** X4, on an example. The attribute service of the example disk, discovered
    and checked on a primed store. *)
Lemma fresh_baseline_no_regression_witness :
  let service :=
    mkService "/dev/sda" (mkAtaParams sda (Some 3) None None None (Some 101) (Some 7)
                            (Some 9) (Some 2)) in
  (exists d,
     In (key (parameters service), DiskATA d) (devices (section_of (DiskATA worn_disk)))
     /\ resolve (section_of (DiskATA worn_disk)) (key (parameters service)) = Some d)
  /\ Forall no_regression_alert
       (emitted (run (check_smart_ata (H := example_host) (H0 := example_clock) "sda"
                        (section_of (DiskATA worn_disk)))
                   (mkEnv (parameters service) (primed (nearest_float 0) 0)))).
Proof.
  intros service.
  apply (fresh_baseline_no_regression (H := example_host) (H0 := example_clock)
           (mkDiscoveryParam (device_name, tt)) (section_of (DiskATA worn_disk))
           service "sda" (primed (nearest_float 0) 0)).
  - apply keys_once_example.
  - left. reflexivity.
Defined.

(** X6, on an example. The power-on hours of the example disk, on a first run.
    *)
Lemma plain_attributes_always_ok_witness :
  about "Powered on" "uptime"
    (emitted (run (_check_smart_ata (H := example_host) "sda"
                     (section_of (DiskATA worn_disk)) (nearest_float 3600))
                (mkEnv worn_baseline ∅)))
  = [Result OK "Powered on: 12345 seconds"; Metric "uptime" 12345].
Proof.
  exact (proj1 (plain_attributes_always_ok (H := example_host) "sda"
                  (section_of (DiskATA worn_disk)) (nearest_float 3600)
                  (mkEnv worn_baseline ∅) worn_disk eq_refl)
           (attr 9 "Power_On_Hours" 90 0 12345) eq_refl).
Defined.

(** X7, on an example. A disk without attribute 188, on a store never used. *)
Lemma check_without_188_returns_witness :
  run (_check_smart_ata (H := example_host) "sda" (section_of (DiskATA quiet_disk))
         (nearest_float 3600)) (mkEnv no_baseline ∅)
  = mkRun (before_timeout (H := example_host) no_baseline quiet_disk
           ++ after_timeout (H := example_host) no_baseline quiet_disk)
      (inr tt) (mkEnv no_baseline ∅).
Proof.
  exact (check_without_188_returns (H := example_host) "sda" (section_of (DiskATA quiet_disk))
           (nearest_float 3600) (mkEnv no_baseline ∅) quiet_disk eq_refl eq_refl).
Defined.

(** X8, on an example. A disk that resolves without an attribute table. *)
Lemma check_without_attributes_is_empty_witness :
  run (_check_smart_ata (H := example_host) "sda" (section_of (DiskATA bare_disk))
         (nearest_float 3600)) (mkEnv worn_baseline ∅)
  = mkRun [] (inr tt) (mkEnv worn_baseline ∅).
Proof.
  exact (check_without_attributes_is_empty (H := example_host) "sda"
           (section_of (DiskATA bare_disk)) (nearest_float 3600) (mkEnv worn_baseline ∅)
           bare_disk eq_refl (or_introl eq_refl)).
Defined.
